(** * nightscout-cli: a shallow embedding of [nightscout_cli/main.py]

    The program is a small command-line client: it reads three settings
    from the environment and the command line, sends one authenticated GET
    request to a Nightscout server and prints the answer.  The embedding
    keeps the shape of the source:

    - [Py]        the Python values the program handles (decoded JSON), the
                  built-ins it calls on them and the exceptions they raise;
    - [Run]       a small monad for the effects of the script: prints to the
                  two streams, the request log, [sys.exit] and exceptions;
    - [datetime]  the part of the [datetime] module used by [cmd_get] and
                  [cmd_history];
    - [json]      [json.dumps] with its default options, and the JSON
                  grammar of RFC 8259 as a relation between texts and values;
    - [requests]  what the script sees of one [requests.get];
    - then [api_get], [cmd_get], [cmd_history], [main], function by function.

    Python strings are modelled by [string], one character per code point
    below 256.  Integers are [Z]. *)

From Stdlib Require Import ZArith Ascii String List Bool Lia.
From stdpp Require Import base option list strings pretty gmap.

#[local] Set Warnings "-register-all".
Local Open Scope string_scope.
Local Open Scope Z_scope.

(** ** Python values and built-ins *)

Module Py.

(** A finite float, kept as the decimal text Python prints for it:
    sign, integer part, fraction digits and an optional exponent, as in
    [120.0], [5.5], [1e+16] and [1.5e-07]. *)
Record decimal := Decimal {
  f_neg : bool;
  f_int : N;
  f_frac : list N;          (* each digit is taken modulo 10 *)
  f_exp : option Z
}.

(** A [float]: finite, an infinity or not-a-number.  The decoder behind
    [response.json()] gives an infinity for a JSON number too large for a
    double ([1e400]) and reads the tokens [Infinity], [-Infinity] and
    [NaN] as well. *)
Inductive pyfloat :=
| Finite (d : decimal)
| Infinite (negative : bool)
| NaN.

(** The objects [response.json()] builds from a JSON text: [None], [bool],
    [int], [float], [str], [list] and [dict] with string keys.  A [dict]
    keeps its items in insertion order; the keys of a decoded object are
    pairwise distinct, so the first match of a lookup is the only one. *)
Inductive pyval :=
| PyNone
| PyBool (b : bool)
| PyInt (n : Z)
| PyFloat (f : pyfloat)
| PyStr (s : string)
| PyList (l : list pyval)
| PyDict (d : list (string * pyval)).

(** The exception classes that the script can meet.  The first four are
    subclasses of [requests.RequestException]; [JSONDecodeError] is the
    [json] module's own class (a [ValueError]), which [response.json()]
    raised before [requests] wrapped it. *)
Inductive exn_class :=
| ConnectionError
| Timeout
| HTTPError
| RequestsJSONDecodeError
| OtherRequestException
| JSONDecodeError
| KeyError
| IndexError
| ValueError
| TypeError
| AttributeError
| OverflowError.

Record exn := Exn { exn_type : exn_class; exn_msg : string }.

(** [isinstance(e, requests.RequestException)] *)
Definition is_RequestException (e : exn) : bool :=
  match exn_type e with
  | ConnectionError | Timeout | HTTPError
  | RequestsJSONDecodeError | OtherRequestException => true
  | _ => false
  end.

Definition class_name (c : exn_class) : string :=
  match c with
  | ConnectionError => "requests.exceptions.ConnectionError"
  | Timeout => "requests.exceptions.Timeout"
  | HTTPError => "requests.exceptions.HTTPError"
  | RequestsJSONDecodeError => "requests.exceptions.JSONDecodeError"
  | OtherRequestException => "requests.exceptions.RequestException"
  | JSONDecodeError => "json.decoder.JSONDecodeError"
  | KeyError => "KeyError"
  | IndexError => "IndexError"
  | ValueError => "ValueError"
  | TypeError => "TypeError"
  | AttributeError => "AttributeError"
  | OverflowError => "OverflowError"
  end.

(** [type(v).__name__] *)
Definition type_name (v : pyval) : string :=
  match v with
  | PyNone => "NoneType"
  | PyBool _ => "bool"
  | PyInt _ => "int"
  | PyFloat _ => "float"
  | PyStr _ => "str"
  | PyList _ => "list"
  | PyDict _ => "dict"
  end.

(** *** Strings *)

(** [sep.join(l)] *)
Fixpoint join (sep : string) (l : list string) : string :=
  match l with
  | [] => ""
  | [x] => x
  | x :: rest => x +:+ sep +:+ join sep rest
  end.

(** [s.replace(c, by)] for a one-character pattern [c]: every occurrence
    is replaced. *)
Fixpoint replace (c : ascii) (by_ : string) (s : string) : string :=
  match s with
  | EmptyString => EmptyString
  | String a rest =>
      if Ascii.eqb a c then by_ +:+ replace c by_ rest
      else String a (replace c by_ rest)
  end.

Definition hex_digit (n : N) : ascii :=
  match n with
  | 0 => "0" | 1 => "1" | 2 => "2" | 3 => "3" | 4 => "4" | 5 => "5"
  | 6 => "6" | 7 => "7" | 8 => "8" | 9 => "9" | 10 => "a" | 11 => "b"
  | 12 => "c" | 13 => "d" | 14 => "e" | _ => "f"
  end%char%N.

(** Two lowercase hexadecimal digits of a character code. *)
Definition hex2 (a : ascii) : string :=
  let n := N_of_ascii a in
  String (hex_digit (n / 16)%N) (String (hex_digit (n mod 16)%N) "").

Definition digit_char (d : N) : ascii := pretty_N_char (d mod 10)%N.

Definition digits_str (l : list N) : string :=
  string_of_list_ascii (List.map digit_char l).

(** *** [float] *)

Definition float_is_zero (f : pyfloat) : bool :=
  match f with
  | Finite d =>
      N.eqb (f_int d) 0 && forallb (fun x => N.eqb (x mod 10) 0) (f_frac d)
  | _ => false
  end.

(** The text of a finite float: without an exponent Python always prints
    a fraction, with one a fraction only when it has digits, and at least
    two exponent digits after an explicit sign. *)
Definition decimal_repr (f : decimal) : string :=
  (if f_neg f then "-" else "") +:+ pretty (f_int f)
  +:+ match f_exp f with
      | None =>
          "." +:+ match f_frac f with [] => "0" | ds => digits_str ds end
      | Some e =>
          match f_frac f with [] => "" | ds => "." +:+ digits_str ds end
          +:+ "e" +:+ (if e <? 0 then "-" else "+")
          +:+ (if Z.abs e <? 10 then "0" else "") +:+ pretty (Z.abs_N e)
      end.

(** [repr(f)] *)
Definition float_repr (f : pyfloat) : string :=
  match f with
  | Finite d => decimal_repr d
  | Infinite false => "inf"
  | Infinite true => "-inf"
  | NaN => "nan"
  end.

(** *** [repr] and [str] *)

(** Characters [str.__repr__] writes as they are. *)
Definition printable (a : ascii) : bool :=
  let n := N_of_ascii a in
  ((32 <=? n) && (n <? 127) || (161 <=? n) && negb (n =? 173))%N.

Definition contains (c : ascii) (s : string) : bool :=
  existsb (Ascii.eqb c) (list_ascii_of_string s).

Fixpoint repr_chars (quote : ascii) (s : string) : string :=
  match s with
  | EmptyString => EmptyString
  | String a rest =>
      (if Ascii.eqb a quote || Ascii.eqb a "\"%char
       then String "\"%char (String a "")
       else if Ascii.eqb a "009"%char then "\t"
       else if Ascii.eqb a "010"%char then "\n"
       else if Ascii.eqb a "013"%char then "\r"
       else if printable a then String a ""
       else "\x" +:+ hex2 a)
      +:+ repr_chars quote rest
  end.

(** [repr(s)] of a string: single quotes, unless the text has a single
    quote and no double quote. *)
Definition str_repr (s : string) : string :=
  let quote : ascii :=
    if contains "'"%char s && negb (contains "034"%char s)
    then "034"%char else "'"%char in
  String quote (repr_chars quote s) +:+ String quote "".

Fixpoint repr (v : pyval) : string :=
  match v with
  | PyNone => "None"
  | PyBool true => "True"
  | PyBool false => "False"
  | PyInt n => pretty n
  | PyFloat f => float_repr f
  | PyStr s => str_repr s
  | PyList l => "[" +:+ join ", " (List.map repr l) +:+ "]"
  | PyDict d =>
      "{" +:+ join ", "
            (List.map (fun kv => str_repr (fst kv) +:+ ": " +:+ repr (snd kv)) d)
      +:+ "}"
  end.

(** [str(v)], which is what an f-string field [{v}] writes. *)
Definition str (v : pyval) : string :=
  match v with
  | PyStr s => s
  | _ => repr v
  end.

(** *** Truth value, subscripts, [dict.get], iteration *)

(** [bool(v)], as tested by [if not entries]. *)
Definition truthy (v : pyval) : bool :=
  match v with
  | PyNone => false
  | PyBool b => b
  | PyInt n => negb (n =? 0)
  | PyFloat f => negb (float_is_zero f)
  | PyStr s => negb (String.eqb s "")
  | PyList l => match l with [] => false | _ => true end
  | PyDict d => match d with [] => false | _ => true end
  end.

Fixpoint lookup_key (k : string) (d : list (string * pyval)) : option pyval :=
  match d with
  | [] => None
  | (k', v) :: rest => if String.eqb k k' then Some v else lookup_key k rest
  end.

(** [v[0]] *)
Definition getitem_0 (v : pyval) : exn + pyval :=
  match v with
  | PyList (x :: _) => inr x
  | PyList [] => inl (Exn IndexError "list index out of range")
  | PyStr (String a _) => inr (PyStr (String a ""))
  | PyStr EmptyString => inl (Exn IndexError "string index out of range")
  | PyDict _ => inl (Exn KeyError "0")
  | _ => inl (Exn TypeError
                ("'" +:+ type_name v +:+ "' object is not subscriptable"))
  end.

(** [v[key]] for a string [key].  The messages are those of Python 3.11;
    before it, the one for a string stops after [integers]. *)
Definition getitem_str (v : pyval) (key : string) : exn + pyval :=
  match v with
  | PyDict d =>
      match lookup_key key d with
      | Some x => inr x
      | None => inl (Exn KeyError (str_repr key))
      end
  | PyList _ =>
      inl (Exn TypeError "list indices must be integers or slices, not str")
  | PyStr _ =>
      inl (Exn TypeError "string indices must be integers, not 'str'")
  | _ => inl (Exn TypeError
                ("'" +:+ type_name v +:+ "' object is not subscriptable"))
  end.

Definition no_attribute (v : pyval) (attr : string) : exn :=
  Exn AttributeError
    ("'" +:+ type_name v +:+ "' object has no attribute '" +:+ attr +:+ "'").

(** [v.get(key, default)] *)
Definition get (v : pyval) (key : string) (default : pyval) : exn + pyval :=
  match v with
  | PyDict d =>
      inr (match lookup_key key d with Some x => x | None => default end)
  | _ => inl (no_attribute v "get")
  end.

(** [v.replace('Z', '+00:00')] *)
Definition replace_Z (v : pyval) : exn + string :=
  match v with
  | PyStr s => inr (replace "Z"%char "+00:00" s)
  | _ => inl (no_attribute v "replace")
  end.

(** The items [for entry in v] visits: the elements of a list, the keys
    of a dict, the characters of a string. *)
Definition iter (v : pyval) : exn + list pyval :=
  match v with
  | PyList l => inr l
  | PyDict d => inr (List.map (fun kv => PyStr (fst kv)) d)
  | PyStr s =>
      inr (List.map (fun a => PyStr (String a "")) (list_ascii_of_string s))
  | _ => inl (Exn TypeError
                ("'" +:+ type_name v +:+ "' object is not iterable"))
  end.

(** No infinity and no not-a-number in the value, at any depth. *)
Fixpoint finite (v : pyval) : bool :=
  match v with
  | PyFloat (Finite _) => true
  | PyFloat _ => false
  | PyList l => forallb finite l
  | PyDict d => forallb (fun kv => finite (snd kv)) d
  | _ => true
  end.

End Py.

(** ** The [datetime] module

    A [datetime] is kept as the number of microseconds between
    0001-01-01T00:00:00 and its wall-clock reading, with the UTC offset of an
    aware value next to it.  The calendar fields are recovered from that
    count with the proleptic Gregorian rules of the module ([ord2ymd], as
    in [date.fromordinal]) when the value is printed.  Arithmetic with a
    [timedelta] is addition on the count, checked against the range of the
    type as the module does. *)

Module datetime.
Import Py.

Definition US_PER_SECOND : Z := 1000000.
Definition US_PER_MINUTE : Z := 60 * US_PER_SECOND.
Definition US_PER_HOUR : Z := 60 * US_PER_MINUTE.
Definition US_PER_DAY : Z := 24 * US_PER_HOUR.

(** [date.max.toordinal()], the ordinal of 9999-12-31 *)
Definition MAXORDINAL : Z := 3652059.

(** [timedelta.max.days] *)
Definition MAX_DELTA_DAYS : Z := 999999999.

Record timedelta := Timedelta { total_us : Z }.

Record datetime := Datetime {
  wall_us : Z;                (* microseconds since 0001-01-01T00:00:00 *)
  utcoffset : option Z        (* [None] for a naive value, else microseconds *)
}.

(** The constructor normalises to days, seconds and microseconds and
    refuses more than [MAX_DELTA_DAYS] days either way; a number of days
    that does not fit a C [int] is refused before that. *)
Definition timedelta_of_us (us : Z) : exn + timedelta :=
  let days := us / US_PER_DAY in
  if Z.abs days <=? MAX_DELTA_DAYS then inr (Timedelta us)
  else if (- 2 ^ 31 <=? days) && (days <? 2 ^ 31)
  then inl (Exn OverflowError
              ("days=" +:+ pretty days +:+ "; must have magnitude <= 999999999"))
  else inl (Exn OverflowError "Python int too large to convert to C int").

(** [timedelta(days=n)] *)
Definition timedelta_days (n : Z) : exn + timedelta :=
  timedelta_of_us (n * US_PER_DAY).

(** [timedelta(minutes=n)] *)
Definition timedelta_minutes (n : Z) : exn + timedelta :=
  timedelta_of_us (n * US_PER_MINUTE).

(** The wall-clock counts a [datetime] can hold: year 1 to year 9999. *)
Definition in_range (us : Z) : bool :=
  (0 <=? us) && (us <? MAXORDINAL * US_PER_DAY).

(** [datetime.now()]: the reading of the local clock, a naive value. *)
Definition now (clock : Z) : datetime := Datetime clock None.

(** [t - d] for a [datetime] and a [timedelta] *)
Definition sub (t : datetime) (d : timedelta) : exn + datetime :=
  let us := wall_us t - total_us d in
  if in_range us then inr (Datetime us (utcoffset t))
  else inl (Exn OverflowError "date value out of range").

(** *** The calendar *)

Definition is_leap (year : Z) : bool :=
  (year mod 4 =? 0) && (negb (year mod 100 =? 0) || (year mod 400 =? 0)).

Definition days_before_year (year : Z) : Z :=
  let y := year - 1 in
  y * 365 + y / 4 - y / 100 + y / 400.

Definition DAYS_IN_MONTH (month : Z) : Z :=
  match month with
  | 1 => 31 | 2 => 28 | 3 => 31 | 4 => 30 | 5 => 31 | 6 => 30
  | 7 => 31 | 8 => 31 | 9 => 30 | 10 => 31 | 11 => 30 | 12 => 31
  | _ => 0
  end.

Definition DAYS_BEFORE_MONTH (month : Z) : Z :=
  match month with
  | 1 => 0 | 2 => 31 | 3 => 59 | 4 => 90 | 5 => 120 | 6 => 151
  | 7 => 181 | 8 => 212 | 9 => 243 | 10 => 273 | 11 => 304 | 12 => 334
  | _ => 0
  end.

Definition days_in_month (year month : Z) : Z :=
  if (month =? 2) && is_leap year then 29 else DAYS_IN_MONTH month.

Definition days_before_month (year month : Z) : Z :=
  DAYS_BEFORE_MONTH month + (if (2 <? month) && is_leap year then 1 else 0).

(** year, month, day to ordinal, 0001-01-01 being day 1 *)
Definition ymd2ord (year month day : Z) : Z :=
  days_before_year year + days_before_month year month + day.

Definition DI400Y : Z := days_before_year 401.
Definition DI100Y : Z := days_before_year 101.
Definition DI4Y : Z := days_before_year 5.

(** ordinal to (year, month, day) *)
Definition ord2ymd (ordinal : Z) : Z * Z * Z :=
  let n := ordinal - 1 in
  let n400 := n / DI400Y in
  let n := n mod DI400Y in
  let year := n400 * 400 + 1 in
  let n100 := n / DI100Y in
  let n := n mod DI100Y in
  let n4 := n / DI4Y in
  let n := n mod DI4Y in
  let n1 := n / 365 in
  let n := n mod 365 in
  let year := year + n100 * 100 + n4 * 4 + n1 in
  if (n1 =? 4) || (n100 =? 4) then (year - 1, 12, 31)
  else
    let leapyear := (n1 =? 3) && (negb (n4 =? 24) || (n100 =? 3)) in
    let month := Z.shiftr (n + 50) 5 in
    let preceding :=
      DAYS_BEFORE_MONTH month + (if (2 <? month) && leapyear then 1 else 0) in
    if n <? preceding then
      let month := month - 1 in
      let preceding :=
        preceding
        - (DAYS_IN_MONTH month + (if (month =? 2) && leapyear then 1 else 0)) in
      (year, month, n - preceding + 1)
    else (year, month, n - preceding + 1).

(** *** [isoformat] *)

Fixpoint zeros (n : nat) : string :=
  match n with
  | O => EmptyString
  | S k => String "0" (zeros k)
  end.

(** ["%0*d" % (width, n)] for [0 <= n] *)
Definition zpad (width : nat) (n : Z) : string :=
  let s := pretty n in
  zeros (width - String.length s) +:+ s.

(** The UTC offset as [+HH:MM], with [:SS] and [.ffffff] when not zero. *)
Definition format_offset (off : Z) : string :=
  let a := Z.abs off in
  let hh := a / US_PER_HOUR in
  let mm := a mod US_PER_HOUR / US_PER_MINUTE in
  let ss := a mod US_PER_MINUTE / US_PER_SECOND in
  let ff := a mod US_PER_SECOND in
  (if off <? 0 then "-" else "+") +:+ zpad 2 hh +:+ ":" +:+ zpad 2 mm
  +:+ (if (ss =? 0) && (ff =? 0) then ""
       else ":" +:+ zpad 2 ss +:+ (if ff =? 0 then "" else "." +:+ zpad 6 ff)).

(** [t.isoformat()] *)
Definition isoformat (t : datetime) : string :=
  let '(year, month, day) := ord2ymd (wall_us t / US_PER_DAY + 1) in
  let r := wall_us t mod US_PER_DAY in
  let hh := r / US_PER_HOUR in
  let mm := r mod US_PER_HOUR / US_PER_MINUTE in
  let ss := r mod US_PER_MINUTE / US_PER_SECOND in
  let ff := r mod US_PER_SECOND in
  zpad 4 year +:+ "-" +:+ zpad 2 month +:+ "-" +:+ zpad 2 day +:+ "T"
  +:+ zpad 2 hh +:+ ":" +:+ zpad 2 mm +:+ ":" +:+ zpad 2 ss
  +:+ (if ff =? 0 then "" else "." +:+ zpad 6 ff)
  +:+ match utcoffset t with
      | None => ""
      | Some off => format_offset off
      end.

(** *** [fromisoformat]

    Which texts [datetime.fromisoformat] reads depends on the version of
    Python: 3.11 reads most of ISO 8601, the versions before only the
    documented format
    [YYYY-MM-DD[*HH[:MM[:SS[.fff[fff]]]][+HH:MM[:SS[.ffffff]]]]], where [*]
    is any one character.  The script is therefore handed the function of
    its interpreter (see [env]); the one defined here reads the documented
    format of Python 3.7 to 3.10 and serves as the interpreter of the
    examples. *)

Definition digit_val (a : ascii) : option Z :=
  let n := N_of_ascii a in
  if ((48 <=? n) && (n <=? 57))%N then Some (Z.of_N n - 48) else None.

Fixpoint digits_val (acc : Z) (s : string) : option Z :=
  match s with
  | EmptyString => Some acc
  | String a rest =>
      match digit_val a with
      | Some d => digits_val (acc * 10 + d) rest
      | None => None
      end
  end.

(** [len] decimal digits at position [pos] of [s] *)
Definition number_at (pos len : nat) (s : string) : option Z :=
  let t := substring pos len s in
  if Nat.eqb (String.length t) len then digits_val 0 t else None.

Definition char_at (pos : nat) (c : ascii) (s : string) : option unit :=
  match String.get pos s with
  | Some a => if Ascii.eqb a c then Some tt else None
  | None => None
  end.

(** [HH[:MM[:SS[.fff[fff]]]]] to (hour, minute, second, microsecond) *)
Definition parse_hh_mm_ss_ff (t : string) : option (Z * Z * Z * Z) :=
  let n := String.length t in
  if negb (existsb (Nat.eqb n) [2; 5; 8; 12; 15])%nat then None else
  hh ← number_at 0 2 t;
  mm ← (if (5 <=? n)%nat then char_at 2 ":" t ≫= λ _, number_at 3 2 t
        else Some 0);
  ss ← (if (8 <=? n)%nat then char_at 5 ":" t ≫= λ _, number_at 6 2 t
        else Some 0);
  ff ← (if (n =? 12)%nat
        then char_at 8 "." t ≫= λ _, (λ x, x * 1000) <$> number_at 9 3 t
        else if (n =? 15)%nat then char_at 8 "." t ≫= λ _, number_at 9 6 t
        else Some 0);
  Some (hh, mm, ss, ff).

(** Position of the sign that starts the UTC offset in the time part. *)
Fixpoint find_char (c : ascii) (s : string) : option nat :=
  match s with
  | EmptyString => None
  | String a rest =>
      if Ascii.eqb a c then Some O else S <$> find_char c rest
  end.

Definition find_sign (t : string) : option (nat * bool) :=
  match find_char "-" t with
  | Some p => Some (p, true)
  | None => (λ p, (p, false)) <$> find_char "+" t
  end.

(** The time part: the clock fields and, when there is a UTC offset, its
    sign (negative or not), whole seconds and microseconds. *)
Definition parse_isoformat_time (t : string)
  : option (Z * Z * Z * Z * option (bool * Z * Z)) :=
  match find_sign t with
  | None => (λ c, (c, None)) <$> parse_hh_mm_ss_ff t
  | Some (p, negative) =>
      c ← parse_hh_mm_ss_ff (substring 0 p t);
      let tz := substring (S p) (String.length t - S p) t in
      if negb (existsb (Nat.eqb (String.length tz)) [5; 8; 15])%nat then None else
      '(h, m, s, f) ← parse_hh_mm_ss_ff tz;
      Some (c, Some (negative, h * 3600 + m * 60 + s, f))
  end.

(** [repr(d)] for a [timedelta]: the fields that are not zero. *)
Definition timedelta_repr (d : timedelta) : string :=
  let days := total_us d / US_PER_DAY in
  let seconds := total_us d mod US_PER_DAY / US_PER_SECOND in
  let us := total_us d mod US_PER_SECOND in
  let fields :=
    ((if days =? 0 then [] else ["days=" +:+ pretty days])
     ++ (if seconds =? 0 then [] else ["seconds=" +:+ pretty seconds])
     ++ (if us =? 0 then [] else ["microseconds=" +:+ pretty us]))%list in
  "datetime.timedelta("
  +:+ (match fields with [] => "0" | _ => join ", " fields end) +:+ ")".

(** The [timezone] of a parsed offset: UTC when its whole seconds are zero,
    whatever the microseconds, else the offset, which must lie strictly
    between minus and plus 24 hours. *)
Definition tzinfo_of_offset (tz : option (bool * Z * Z)) : exn + option Z :=
  match tz with
  | None => inr None
  | Some (negative, seconds, us) =>
      if seconds =? 0 then inr (Some 0)
      else
        let off := seconds * US_PER_SECOND + us in
        let off := if negative then - off else off in
        if Z.abs off <? US_PER_DAY then inr (Some off)
        else inl (Exn ValueError
                    ("offset must be a timedelta strictly between "
                     +:+ "-timedelta(hours=24) and timedelta(hours=24), not "
                     +:+ timedelta_repr (Timedelta off) +:+ "."))
  end.

(** [YYYY-MM-DD] *)
Definition parse_isoformat_date (d : string) : option (Z * Z * Z) :=
  year ← number_at 0 4 d;
  _ ← char_at 4 "-" d;
  month ← number_at 5 2 d;
  _ ← char_at 7 "-" d;
  day ← number_at 8 2 d;
  Some (year, month, day).

(** The field checks of the [datetime] constructor, in its order: the
    message of the first field out of range, if any. *)
Definition check_fields (year month day hh mm ss : Z) : option string :=
  if negb ((1 <=? year) && (year <=? 9999))
  then Some ("year " +:+ pretty year +:+ " is out of range")
  else if negb ((1 <=? month) && (month <=? 12))
  then Some "month must be in 1..12"
  else if negb ((1 <=? day) && (day <=? days_in_month year month))
  then Some "day is out of range for month"
  else if negb (hh <=? 23) then Some "hour must be in 0..23"
  else if negb (mm <=? 59) then Some "minute must be in 0..59"
  else if negb (ss <=? 59) then Some "second must be in 0..59"
  else None.

(** The fields of a text in the documented format. *)
Definition parse_isoformat (s : string)
  : option (Z * Z * Z * (Z * Z * Z * Z * option (bool * Z * Z))) :=
  let n := String.length s in
  '(year, month, day) ← parse_isoformat_date (substring 0 10 s);
  time ←
    (if (n =? 10)%nat then Some (0, 0, 0, 0, None)
     else parse_isoformat_time (substring 11 (n - 11) s));
  Some (year, month, day, time).

(** [datetime.fromisoformat(s)]: a text outside the format is an invalid
    isoformat string; for one inside it the time zone is built, then the
    [datetime], each with its own range checks. *)
Definition fromisoformat (s : string) : exn + datetime :=
  match parse_isoformat s with
  | None => inl (Exn ValueError ("Invalid isoformat string: " +:+ str_repr s))
  | Some (year, month, day, (hh, mm, ss, ff, tz)) =>
      match tzinfo_of_offset tz with
      | inl e => inl e
      | inr offset =>
          match check_fields year month day hh mm ss with
          | Some msg => inl (Exn ValueError msg)
          | None =>
              inr (Datetime
                     ((ymd2ord year month day - 1) * US_PER_DAY
                      + hh * US_PER_HOUR + mm * US_PER_MINUTE
                      + ss * US_PER_SECOND + ff) offset)
          end
      end
  end.

End datetime.

(** ** The [json] module *)

Module json.
Import Py.

Definition backslash : ascii := "\"%char.
Definition dquote : ascii := "034"%char.

(** Four lowercase hexadecimal digits of a character code. *)
Definition hex4 (a : ascii) : string := "00" +:+ hex2 a.

(** One character inside a JSON string, as [json.dumps] writes it with
    [ensure_ascii=True]: the two-character escapes first, every other
    character outside [' '..'~'] as [\uXXXX]. *)
Definition escape_char (a : ascii) : string :=
  if Ascii.eqb a dquote then String backslash (String dquote "")
  else if Ascii.eqb a backslash then String backslash (String backslash "")
  else if Ascii.eqb a "008"%char then "\b"
  else if Ascii.eqb a "012"%char then "\f"
  else if Ascii.eqb a "010"%char then "\n"
  else if Ascii.eqb a "013"%char then "\r"
  else if Ascii.eqb a "009"%char then "\t"
  else if ((32 <=? N_of_ascii a) && (N_of_ascii a <=? 126))%N then String a ""
  else "\u" +:+ hex4 a.

Fixpoint escape (s : string) : string :=
  match s with
  | EmptyString => EmptyString
  | String a rest => escape_char a +:+ escape rest
  end.

(** [json.dumps(s)] for a string *)
Definition quote (s : string) : string :=
  String dquote (escape s) +:+ String dquote "".

(** A float as [json.dumps] writes it with [allow_nan=True], the default:
    [float.__repr__] for a finite one, and the three tokens of JavaScript
    for the others. *)
Definition float_text (f : pyfloat) : string :=
  match f with
  | Finite d => decimal_repr d
  | Infinite false => "Infinity"
  | Infinite true => "-Infinity"
  | NaN => "NaN"
  end.

(** [json.dumps(v)] with the default options: separators [", "] and
    [": "], no indentation, keys in the order of the dict. *)
Fixpoint dumps (v : pyval) : string :=
  match v with
  | PyNone => "null"
  | PyBool true => "true"
  | PyBool false => "false"
  | PyInt n => pretty n
  | PyFloat f => float_text f
  | PyStr s => quote s
  | PyList l => "[" +:+ join ", " (List.map dumps l) +:+ "]"
  | PyDict d =>
      "{" +:+ join ", "
            (List.map (fun kv => quote (fst kv) +:+ ": " +:+ dumps (snd kv)) d)
      +:+ "}"
  end.

(** *** The grammar of RFC 8259

    [denotes t v]: the text [t] is a JSON value in the sense of the RFC and
    stands for [v].  Insignificant whitespace may surround the elements of
    an array and the names and values of an object. *)

Definition is_ws_char (a : ascii) : bool :=
  Ascii.eqb a " " || Ascii.eqb a "009" || Ascii.eqb a "010" || Ascii.eqb a "013".

Definition ws (s : string) : Prop :=
  forallb is_ws_char (list_ascii_of_string s) = true.

Definition is_digit (a : ascii) : bool :=
  ((48 <=? N_of_ascii a) && (N_of_ascii a <=? 57))%N.

Fixpoint all_digits (s : string) : bool :=
  match s with
  | EmptyString => true
  | String a rest => is_digit a && all_digits rest
  end.

(** The leading digits of [s] and what follows them. *)
Fixpoint span_digits (s : string) : string * string :=
  match s with
  | EmptyString => (EmptyString, EmptyString)
  | String a rest =>
      if is_digit a
      then let '(ds, r) := span_digits rest in (String a ds, r)
      else (EmptyString, s)
  end.

(** [int = zero / ( digit1-9 *DIGIT )] *)
Definition int_part (s : string) : bool :=
  match s with
  | EmptyString => false
  | String a rest =>
      is_digit a && all_digits rest
      && (negb (Ascii.eqb a "0") || String.eqb rest "")
  end.

(** [exp = e [ minus / plus ] 1*DIGIT], or nothing *)
Definition exp_part (s : string) : bool :=
  match s with
  | EmptyString => true
  | String e rest =>
      (Ascii.eqb e "e" || Ascii.eqb e "E")
      && let ds := match rest with
                   | String sg r =>
                       if Ascii.eqb sg "-" || Ascii.eqb sg "+" then r else rest
                   | EmptyString => rest
                   end in
         negb (String.eqb ds "") && all_digits ds
  end.

(** [[ frac ] [ exp ]], what may follow the integer part:
    [frac = decimal-point 1*DIGIT] *)
Definition after_int (r : string) : bool :=
  match r with
  | String a r' =>
      if Ascii.eqb a "."
      then let '(fp, r'') := span_digits r' in
           negb (String.eqb fp "") && exp_part r''
      else exp_part r
  | EmptyString => true
  end.

(** [number = [ minus ] int [ frac ] [ exp ]] *)
Definition number (s : string) : bool :=
  let s := match s with
           | String a r => if Ascii.eqb a "-" then r else s
           | EmptyString => s
           end in
  let '(ip, r) := span_digits s in
  int_part ip && after_int r.

Definition starts_without_digit (s : string) : Prop :=
  match s with
  | EmptyString => True
  | String a _ => is_digit a = false
  end.

(** The integer a number text without fraction and exponent stands for. *)
Definition int_value (s : string) : option Z :=
  match s with
  | String a r =>
      if Ascii.eqb a "-" then Z.opp <$> datetime.digits_val 0 r
      else datetime.digits_val 0 s
  | EmptyString => None
  end.

Definition hex_val (a : ascii) : option N :=
  let n := N_of_ascii a in
  if ((48 <=? n) && (n <=? 57))%N then Some (n - 48)%N
  else if ((97 <=? n) && (n <=? 102))%N then Some (n - 87)%N
  else if ((65 <=? n) && (n <=? 70))%N then Some (n - 55)%N
  else None.

(** The character a two-character escape [\c] stands for. *)
Definition simple_escape (c : ascii) : option ascii :=
  if Ascii.eqb c dquote then Some dquote
  else if Ascii.eqb c backslash then Some backslash
  else if Ascii.eqb c "/" then Some "/"%char
  else if Ascii.eqb c "b" then Some "008"%char
  else if Ascii.eqb c "f" then Some "012"%char
  else if Ascii.eqb c "n" then Some "010"%char
  else if Ascii.eqb c "r" then Some "013"%char
  else if Ascii.eqb c "t" then Some "009"%char
  else None.

(** [unescaped = %x20-21 / %x23-5B / %x5D-10FFFF] *)
Definition unescaped (a : ascii) : bool :=
  (32 <=? N_of_ascii a)%N && negb (Ascii.eqb a dquote)
  && negb (Ascii.eqb a backslash).

(** The characters between the quotation marks, and the string they
    stand for. *)
Inductive chars : string -> string -> Prop :=
| chars_nil : chars EmptyString EmptyString
| chars_plain a t s :
    unescaped a = true -> chars t s -> chars (String a t) (String a s)
| chars_escape c a t s :
    simple_escape c = Some a -> chars t s ->
    chars (String backslash (String c t)) (String a s)
| chars_u h1 h2 h3 h4 n1 n2 n3 n4 a t s :
    hex_val h1 = Some n1 -> hex_val h2 = Some n2 ->
    hex_val h3 = Some n3 -> hex_val h4 = Some n4 ->
    N_of_ascii a = (((n1 * 16 + n2) * 16 + n3) * 16 + n4)%N ->
    chars t s ->
    chars (String backslash
             (String "u" (String h1 (String h2 (String h3 (String h4 t))))))
          (String a s).

Definition string_lit (t : string) (s : string) : Prop :=
  exists body, t = String dquote body +:+ String dquote "" /\ chars body s.

(** [a , b , c]: items separated by commas. *)
Inductive separated {A : Type} (item : string -> A -> Prop)
  : string -> list A -> Prop :=
| separated_one t x : item t x -> separated item t [x]
| separated_cons t x body l :
    item t x -> separated item body l ->
    separated item (t +:+ "," +:+ body) (x :: l).

(** An item with whitespace around it. *)
Definition padded {A : Type} (item : string -> A -> Prop)
  (t : string) (x : A) : Prop :=
  exists w1 t' w2, t = w1 +:+ t' +:+ w2 /\ ws w1 /\ item t' x /\ ws w2.

Inductive denotes : string -> pyval -> Prop :=
| denotes_null : denotes "null" PyNone
| denotes_true : denotes "true" (PyBool true)
| denotes_false : denotes "false" (PyBool false)
| denotes_int t n :
    number t = true -> int_value t = Some n -> denotes t (PyInt n)
| denotes_float t d :
    number t = true -> t = decimal_repr d -> denotes t (PyFloat (Finite d))
| denotes_string t s : string_lit t s -> denotes t (PyStr s)
| denotes_empty_array w : ws w -> denotes ("[" +:+ w +:+ "]") (PyList [])
| denotes_array body l :
    separated (padded denotes) body l ->
    denotes ("[" +:+ body +:+ "]") (PyList l)
| denotes_empty_object w : ws w -> denotes ("{" +:+ w +:+ "}") (PyDict [])
| denotes_object body d :
    separated
      (fun t (kv : string * pyval) =>
         exists k t', t = k +:+ ":" +:+ t'
                      /\ padded string_lit k (fst kv)
                      /\ padded denotes t' (snd kv))
      body d ->
    denotes ("{" +:+ body +:+ "}") (PyDict d).

(** *** The characters of a JSON text

    Outside its strings a JSON text holds structural characters, whitespace,
    the characters of numbers and the letters of the three literal names,
    and nothing else.  [lex] reads a text from left to right and keeps
    track of the strings; it stops with [None] at a character that cannot
    stand where it stands. *)
Inductive lex_state :=
| Outside
| Inside
| Escaped.

Definition outside_char (a : ascii) : bool :=
  is_ws_char a || is_digit a
  || existsb (Ascii.eqb a) (list_ascii_of_string "[]{}:,-+.eEnultrfas").

Fixpoint lex (st : lex_state) (s : string) : option lex_state :=
  match s with
  | EmptyString => Some st
  | String a rest =>
      match st with
      | Outside =>
          if Ascii.eqb a dquote then lex Inside rest
          else if outside_char a then lex Outside rest
          else None
      | Inside =>
          if Ascii.eqb a dquote then lex Outside rest
          else if Ascii.eqb a backslash then lex Escaped rest
          else lex Inside rest
      | Escaped => lex Inside rest
      end
  end.

(** No line break in the text. *)
Definition one_line (s : string) : bool :=
  forallb (fun a => negb (Ascii.eqb a "010")) (list_ascii_of_string s).

(** Only printable ASCII characters, space to tilde, in the text. *)
Definition ascii_text (s : string) : bool :=
  forallb (fun a => (32 <=? N_of_ascii a)%N && (N_of_ascii a <=? 126)%N)
    (list_ascii_of_string s).

(** A JSON text whose value is an object with exactly the given names, in
    the given order. *)
Definition object_with_keys (t : string) (keys : list string) : Prop :=
  exists d, denotes t (PyDict d) /\ List.map fst d = keys.

End json.

(** ** The [requests] library, as far as the script sees it *)

Module requests.
Import Py.

(** [requests.get(url, headers=headers, params=params)] *)
Record request := Request {
  url : string;
  headers : list (string * string);
  params : option (list (string * pyval))
}.

(** A response object: the status line, the final URL, and what a call of
    [response.json()] does with the body, decode it or raise. *)
Record Response := mkResponse {
  status_code : Z;
  reason : string;
  response_url : string;
  body : exn + pyval
}.

(** What one call of [requests.get] does: raise (no connection, timeout,
    too many redirects, ...) or return the response of the server. *)
Inductive reply :=
| Raises (e : exn)
| Answers (r : Response).

(** [response.raise_for_status()]: an [HTTPError] for the client and server
    error codes, 400 to 599, and nothing for any other code. *)
Definition raise_for_status (r : Response) : exn + unit :=
  let msg kind :=
    pretty (status_code r) +:+ kind +:+ reason r
    +:+ " for url: " +:+ response_url r in
  if (400 <=? status_code r) && (status_code r <? 500)
  then inl (Exn HTTPError (msg " Client Error: "))
  else if (500 <=? status_code r) && (status_code r <? 600)
  then inl (Exn HTTPError (msg " Server Error: "))
  else inr tt.

(** [response.json()] *)
Definition json (r : Response) : exn + pyval := body r.

End requests.

(** ** Effects

    A run of the script prints to standard output and to the error stream,
    sends requests, and ends by returning, by [sys.exit] or by an exception
    nobody caught.  [world] is what an observer has seen so far; each
    element of [stdout] and [stderr] is the text of one [print] call. *)

Module Run.
Import Py requests.

Record world := World {
  stdout : list string;
  stderr : list string;
  sent : list request
}.

Inductive outcome (A : Type) :=
| Return (a : A)
| Raise (e : exn)
| Exit (code : Z).
Arguments Return {A} a.
Arguments Raise {A} e.
Arguments Exit {A} code.

Definition M (A : Type) : Type := world -> outcome A * world.

Definition ret {A} (a : A) : M A := fun w => (Return a, w).

Definition bind {A B} (m : M A) (k : A -> M B) : M B :=
  fun w =>
    match m w with
    | (Return a, w') => k a w'
    | (Raise e, w') => (Raise e, w')
    | (Exit c, w') => (Exit c, w')
    end.

Definition raise {A} (e : exn) : M A := fun w => (Raise e, w).

(** [sys.exit(code)] *)
Definition sys_exit {A} (code : Z) : M A := fun w => (Exit code, w).

(** A call that returns or raises and does nothing else. *)
Definition lift {A} (r : exn + A) : M A :=
  match r with
  | inl e => raise e
  | inr a => ret a
  end.

(** [print(s)] *)
Definition print (s : string) : M unit :=
  fun w => (Return tt, World (stdout w ++ [s]) (stderr w) (sent w)).

(** [print(s, file=sys.stderr)] *)
Definition print_stderr (s : string) : M unit :=
  fun w => (Return tt, World (stdout w) (stderr w ++ [s]) (sent w)).

(** [try: body  except C as e: handler(e)], where [catches e] says whether
    [e] is an instance of [C].  [sys.exit] inside [body] is not caught. *)
Definition try_except {A} (body : M A) (catches : exn -> bool)
  (handler : exn -> M A) : M A :=
  fun w =>
    match body w with
    | (Raise e, w') => if catches e then handler e w' else (Raise e, w')
    | r => r
    end.

(** [for x in l: body(x)] *)
Fixpoint for_each {A} (l : list A) (body : A -> M unit) : M unit :=
  match l with
  | [] => ret tt
  | x :: rest => bind (body x) (fun _ => for_each rest body)
  end.

#[global] Instance M_ret : MRet M := @ret.
#[global] Instance M_bind : MBind M := fun A B k m => bind m k.

End Run.

(** ** The script *)

Import Py requests Run.

(** What the script reads from outside: the environment variables, the
    local clock, the server behind [requests.get], the help text [argparse]
    renders for the parser, and [datetime.fromisoformat] as the interpreter
    that runs the script provides it. *)
Record env := Env {
  environ : gmap string string;
  clock_us : Z;               (* local time, microseconds since 0001-01-01 *)
  http : request -> reply;
  help_text : string;
  datetime_fromisoformat : string -> exn + datetime.datetime
}.

(** [os.environ.get(name, fallback)] *)
Definition environ_get (E : env) (name fallback : string) : string :=
  default fallback (environ E !! name).

Definition DEFAULT_API_SECRET (E : env) : string :=
  environ_get E "NIGHTSCOUT_API_SECRET" "soilentgreenandblue".
Definition DEFAULT_HOST (E : env) : string :=
  environ_get E "NIGHTSCOUT_HOST" "127.0.0.1".
Definition DEFAULT_PORT (E : env) : string :=
  environ_get E "NIGHTSCOUT_PORT" "80".

(** [requests.get]: the request is sent, and the call returns the response
    or raises. *)
Definition requests_get (E : env) (u : string)
  (h : list (string * string)) (p : option (list (string * pyval)))
  : M Response :=
  fun w =>
    let req := Request u h p in
    let w' := World (stdout w) (stderr w) (sent w ++ [req]) in
    match http E req with
    | Raises e => (Raise e, w')
    | Answers r => (Return r, w')
    end.

Definition api_get (E : env) (base_url api_secret endpoint : string)
  (params : option (list (string * pyval))) : M pyval :=
  let headers := [("API-SECRET", api_secret)] in
  try_except
    (response ← requests_get E (base_url +:+ endpoint) headers params;
     lift (raise_for_status response);;
     lift (json response))
    is_RequestException
    (fun e =>
       print_stderr ("Error: " +:+ exn_msg e);;
       sys_exit 1).

(** The options of the [history] sub-command. *)
Record history_args := HistoryArgs {
  days_ago : Z;
  period : Z;
  jsonl : bool
}.

Inductive subcommand :=
| Get
| History (o : history_args).

(** The namespace [parse_args] returns. *)
Record Namespace := mkNamespace {
  host : string;
  port : string;
  api_secret : string;
  command : option subcommand
}.

Definition cmd_get (E : env) (args : Namespace) : M unit :=
  let base_url := "http://" +:+ host args +:+ ":" +:+ port args in
  entries ← api_get E base_url (api_secret args) "/api/v1/entries.json"
               (Some [("count", PyInt 1)]);
  if negb (truthy entries) then
    print "No data available"
  else
    entry ← lift (getitem_0 entries);
    date_string ← lift (getitem_str entry "dateString");
    replaced ← lift (replace_Z date_string);
    timestamp ← lift (datetime_fromisoformat E replaced);
    value ← lift (get entry "sgv" (PyStr "N/A"));
    units ← lift (get entry "units" (PyStr "mg/dL"));
    direction ← lift (get entry "direction" (PyStr ""));
    print (datetime.isoformat timestamp +:+ " " +:+ str value +:+ " "
           +:+ str units +:+ " " +:+ str direction).

Definition cmd_history (E : env) (args : Namespace) (o : history_args)
  : M unit :=
  let base_url := "http://" +:+ host args +:+ ":" +:+ port args in
  days ← lift (datetime.timedelta_days (days_ago o));
  end_time ← lift (datetime.sub (datetime.now (clock_us E)) days);
  minutes ← lift (datetime.timedelta_minutes (period o));
  start_time ← lift (datetime.sub end_time minutes);
  let params :=
    [("find[dateString][$gte]", PyStr (datetime.isoformat start_time +:+ "Z"));
     ("find[dateString][$lte]", PyStr (datetime.isoformat end_time +:+ "Z"));
     ("count", PyInt 10000)] in
  entries ← api_get E base_url (api_secret args) "/api/v1/entries.json"
               (Some params);
  items ← lift (iter entries);
  if jsonl o then
    for_each items (fun entry =>
      timestamp ← lift (get entry "dateString" PyNone);
      sgv ← lift (get entry "sgv" PyNone);
      units ← lift (get entry "units" (PyStr "mg/dL"));
      direction ← lift (get entry "direction" (PyStr ""));
      let output :=
        PyDict [("timestamp", timestamp); ("sgv", sgv);
                ("units", units); ("direction", direction)] in
      print (json.dumps output))
  else
    for_each items (fun entry =>
      timestamp ← lift (get entry "dateString" PyNone);
      value ← lift (get entry "sgv" (PyStr "N/A"));
      units ← lift (get entry "units" (PyStr "mg/dL"));
      print (str timestamp +:+ " " +:+ str value +:+ " " +:+ str units)).

(** The command line, as [argparse] splits it: each option given or not,
    and the sub-command with its own options. *)
Inductive sub_argv :=
| ArgvGet
| ArgvHistory (days_ago_opt period_opt : option Z) (jsonl_flag : bool).

Record argv := Argv {
  host_opt : option string;
  port_opt : option string;
  api_secret_opt : option string;
  subcmd : option sub_argv
}.

(** [parser.parse_args()] on a command line the parser accepts: an option
    that is not given takes the default declared for it.  A command line
    [argparse] refuses (an option it does not know, a text after
    [--days-ago] or [--period] that [int] does not read) ends the process
    with status 2 inside [parse_args], and [-h] ends it with status 0; an
    [argv] stands for neither. *)
Definition parse_args (E : env) (a : argv) : Namespace :=
  {| host := default (DEFAULT_HOST E) (host_opt a);
     port := default (DEFAULT_PORT E) (port_opt a);
     api_secret := default (DEFAULT_API_SECRET E) (api_secret_opt a);
     command :=
       match subcmd a with
       | None => None
       | Some ArgvGet => Some Get
       | Some (ArgvHistory d p j) =>
           Some (History {| days_ago := default 0 d;
                            period := default 1440 p;
                            jsonl := j |})
       end |}.

Definition main (E : env) (a : argv) : M unit :=
  let args := parse_args E a in
  match command args with
  | None =>
      print (help_text E);;
      sys_exit 1
  | Some Get => cmd_get E args
  | Some (History o) => cmd_history E args o
  end.

(** ** The process

    What the shell sees of one run: the two streams, the exit status, and
    the requests that went out.  An exception that reaches the top level is
    reported on the error stream and the status is 1. *)

Record process := Process {
  proc_stdout : list string;
  proc_stderr : list string;
  proc_status : Z;
  proc_sent : list request
}.

(** The report of an uncaught exception, without the stack frames. *)
Definition traceback (e : exn) : list string :=
  ["Traceback (most recent call last):";
   class_name (exn_type e) +:+ ": " +:+ exn_msg e].

Definition finish (r : outcome unit * world) : process :=
  match r with
  | (Return _, w) => Process (stdout w) (stderr w) 0 (sent w)
  | (Exit c, w) => Process (stdout w) (stderr w) c (sent w)
  | (Raise e, w) => Process (stdout w) (stderr w ++ traceback e) 1 (sent w)
  end.

Definition run (E : env) (a : argv) : process :=
  finish (main E a (World [] [] [])).

(** ** Vocabulary of the statements *)

(** The window [cmd_history] computes on its lines 51 and 52: the start
    and the end time, or the exception of the step that raised. *)
Definition time_range (E : env) (o : history_args)
  : exn + datetime.datetime * datetime.datetime :=
  match datetime.timedelta_days (days_ago o) with
  | inl e => inl e
  | inr d =>
      match datetime.sub (datetime.now (clock_us E)) d with
      | inl e => inl e
      | inr end_time =>
          match datetime.timedelta_minutes (period o) with
          | inl e => inl e
          | inr p =>
              match datetime.sub end_time p with
              | inl e => inl e
              | inr start_time => inr (start_time, end_time)
              end
          end
      end
  end.

(** The request [api_get] builds for the entries end point. *)
Definition entries_request (args : Namespace)
  (params : list (string * pyval)) : request :=
  {| url := "http://" +:+ host args +:+ ":" +:+ port args
            +:+ "/api/v1/entries.json";
     headers := [("API-SECRET", api_secret args)];
     params := Some params |}.

Definition get_params : list (string * pyval) := [("count", PyInt 1)].

Definition history_params (start_time end_time : datetime.datetime)
  : list (string * pyval) :=
  [("find[dateString][$gte]", PyStr (datetime.isoformat start_time +:+ "Z"));
   ("find[dateString][$lte]", PyStr (datetime.isoformat end_time +:+ "Z"));
   ("count", PyInt 10000)].

(** The call went through: a response came back, its status is no error
    status, and its body decodes to [v]. *)
Definition api_returns (r : reply) (v : pyval) : Prop :=
  exists resp, r = Answers resp /\ raise_for_status resp = inr tt
               /\ body resp = inr v.

(** The call failed: [requests.get] raised, or the status is an error
    status (400 to 599), or the body does not decode. *)
Inductive transport_failure : reply -> Prop :=
| failure_raises e : transport_failure (Raises e)
| failure_status resp :
    400 <= status_code resp < 600 -> transport_failure (Answers resp)
| failure_body resp e :
    body resp = inl e -> transport_failure (Answers resp).

(** [d.get(key, fallback)] on the items of a dict *)
Definition field (d : list (string * pyval)) (key : string)
  (fallback : pyval) : pyval :=
  default fallback (lookup_key key d).

(** The line of the [get] command for an entry whose time stamp was read
    as [t]. *)
Definition get_line (t : datetime.datetime) (d : list (string * pyval))
  : string :=
  datetime.isoformat t +:+ " " +:+ str (field d "sgv" (PyStr "N/A"))
  +:+ " " +:+ str (field d "units" (PyStr "mg/dL"))
  +:+ " " +:+ str (field d "direction" (PyStr "")).

(** The line of [history] in the human-readable mode. *)
Definition text_line (d : list (string * pyval)) : string :=
  str (field d "dateString" PyNone) +:+ " "
  +:+ str (field d "sgv" (PyStr "N/A")) +:+ " "
  +:+ str (field d "units" (PyStr "mg/dL")).

(** The object [history --jsonl] writes for an entry. *)
Definition jsonl_object (d : list (string * pyval))
  : list (string * pyval) :=
  [("timestamp", field d "dateString" PyNone);
   ("sgv", field d "sgv" PyNone);
   ("units", field d "units" (PyStr "mg/dL"));
   ("direction", field d "direction" (PyStr ""))].

Definition jsonl_line (d : list (string * pyval)) : string :=
  json.dumps (PyDict (jsonl_object d)).

(** The options of [history] as [parse_args] fills them in. *)
Definition history_options (d p : option Z) (j : bool) : history_args :=
  {| days_ago := default 0 d; period := default 1440 p; jsonl := j |}.

(** The world after [requests.get] has sent [req]. *)
Definition sent_request (w : world) (req : request) : world :=
  World (stdout w) (stderr w) (sent w ++ [req]).

(** The end of [api_get] in its [except] branch: the message is printed on
    the error stream and the script exits with status 1. *)
Definition fatal (w : world) (req : request) (e : exn)
  : outcome pyval * world :=
  (Exit 1,
   World (stdout w) (stderr w ++ ["Error: " +:+ exn_msg e])
     (sent w ++ [req])).

(** The lines a [print] call writes: its text, cut at every line feed. *)
Fixpoint split_lines (s : string) : list string :=
  match s with
  | EmptyString => [EmptyString]
  | String a rest =>
      if Ascii.eqb a "010" then EmptyString :: split_lines rest
      else match split_lines rest with
           | l :: ls => String a l :: ls
           | [] => [String a EmptyString]
           end
  end.

(** The lines of a stream, given the texts of its [print] calls. *)
Definition stream_lines (texts : list string) : list string :=
  concat (List.map split_lines texts).

(** One turn of either loop of [cmd_history]: [.get] needs a dict. *)
Definition print_entry (as_jsonl : bool) (entry : pyval) : M unit :=
  match entry with
  | PyDict d => print (if as_jsonl then jsonl_line d else text_line d)
  | _ => raise (no_attribute entry "get")
  end.

(** ** Sample inputs *)

(** 2024-01-01T00:00:00 on the local clock *)
Definition sample_clock : Z := 63839664000000000.

(** A machine with no environment variable set, whose server gives the
    same reply to every request. *)
Definition sample_env (r : reply) : env :=
  {| environ := ∅; clock_us := sample_clock; http := fun _ => r;
     help_text := "usage: nightscout-cli [-h] {get,history} ...";
     datetime_fromisoformat := datetime.fromisoformat |}.

Definition argv_get : argv := Argv None None None (Some ArgvGet).

Definition argv_history (d p : option Z) (j : bool) : argv :=
  Argv None None None (Some (ArgvHistory d p j)).

(** A response with status 200 whose body decodes to [v]. *)
Definition ok_reply (v : pyval) : reply :=
  Answers (mkResponse 200 "OK" "http://127.0.0.1:80/api/v1/entries.json"
             (inr v)).

(** The entry of the example in the specification. *)
Definition sample_entry : list (string * pyval) :=
  [("dateString", PyStr "2024-01-01T00:00:00Z"); ("sgv", PyInt 120);
   ("units", PyStr "mg/dL"); ("direction", PyStr "Flat")].

(** * Properties *)

(** ** Settings: command line, environment, built-in default *)

Section Settings.
Variable E : env.
Variable a : argv.

Lemma environ_get_set name fallback v :
  environ E !! name = Some v -> environ_get E name fallback = v.
Proof. unfold environ_get. by intros ->. Qed.

Lemma environ_get_unset name fallback :
  environ E !! name = None -> environ_get E name fallback = fallback.
Proof. unfold environ_get. by intros ->. Qed.

(** C7.  For each of host, port and api-secret: the value given on the
    command line wins; without one, the environment variable wins when it is
    set; without either, the built-in default is used (127.0.0.1, 80, the
    fallback secret). *)
Theorem settings_precedence :
  let args := parse_args E a in
  let pick (given : option string) (name fallback : string) :=
    match given, environ E !! name with
    | Some v, _ => v
    | None, Some v => v
    | None, None => fallback
    end in
  host args = pick (host_opt a) "NIGHTSCOUT_HOST" "127.0.0.1"
  /\ port args = pick (port_opt a) "NIGHTSCOUT_PORT" "80"
  /\ api_secret args
     = pick (api_secret_opt a) "NIGHTSCOUT_API_SECRET" "soilentgreenandblue".
Proof.
  cbn zeta. unfold parse_args; cbn [host port api_secret].
  unfold DEFAULT_HOST, DEFAULT_PORT, DEFAULT_API_SECRET, environ_get.
  split; [|split].
  - destruct (host_opt a); [done|]. by destruct (environ E !! _).
  - destruct (port_opt a); [done|]. by destruct (environ E !! _).
  - destruct (api_secret_opt a); [done|]. by destruct (environ E !! _).
Qed.

End Settings.

(** ** The time window of [history] *)

Section TimeRange.
Import datetime.

Lemma in_range_iff us : in_range us = true <-> 0 <= us < 315537897600000000.
Proof.
  unfold in_range.
  change (MAXORDINAL * US_PER_DAY) with 315537897600000000. lia.
Qed.

(** Any span shorter than the range of [datetime] is a [timedelta]. *)
Lemma timedelta_of_us_small us :
  Z.abs us < 315537897600000000 -> timedelta_of_us us = inr (Timedelta us).
Proof.
  intros H. unfold timedelta_of_us.
  change US_PER_DAY with 86400000000. change MAX_DELTA_DAYS with 999999999.
  destruct (Z.leb_spec (Z.abs (us / 86400000000)) 999999999) as [|Hgt]; [done|].
  exfalso.
  assert (-315537897600000000 < us < 315537897600000000) as [Hl Hu] by lia.
  pose proof (Z.div_lt_upper_bound us 86400000000 3652059
                ltac:(lia) ltac:(lia)).
  pose proof (Z.div_le_lower_bound us 86400000000 (-3652059)
                ltac:(lia) ltac:(lia)).
  lia.
Qed.

Lemma timedelta_of_us_cases us :
  timedelta_of_us us = inr (Timedelta us)
  \/ exists msg, timedelta_of_us us = inl (Exn OverflowError msg).
Proof. unfold timedelta_of_us. repeat case_match; eauto. Qed.

Lemma sub_eq t d :
  sub t d = if in_range (wall_us t - total_us d)
            then inr (Datetime (wall_us t - total_us d) (utcoffset t))
            else inl (Exn OverflowError "date value out of range").
Proof. reflexivity. Qed.

(** C1, as the code has it.  With the clock reading a valid date-time,
    let end = now - D days and start = end - P minutes.  When both lie in
    the range of [datetime] (years 1 to 9999) the window is computed, and
    these are its two ends; otherwise the computation raises
    [OverflowError].  start <= end holds exactly when P is not negative. *)
Theorem history_time_range (E : env) (o : history_args) :
  let end_us := clock_us E - days_ago o * US_PER_DAY in
  let start_us := end_us - period o * US_PER_MINUTE in
  in_range (clock_us E) = true ->
  (in_range end_us && in_range start_us = true ->
   time_range E o = inr (Datetime start_us None, Datetime end_us None))
  /\ (in_range end_us && in_range start_us = false ->
      exists msg, time_range E o = inl (Exn OverflowError msg))
  /\ (start_us <= end_us <-> 0 <= period o).
Proof.
  intros end_us start_us Hnow. apply in_range_iff in Hnow.
  unfold time_range, timedelta_days, timedelta_minutes, now.
  split; [|split].
  - intros [He Hs]%andb_true_iff.
    pose proof He as He'. pose proof Hs as Hs'.
    apply in_range_iff in He', Hs'.
    rewrite timedelta_of_us_small by (subst end_us; lia).
    rewrite sub_eq; cbn [wall_us total_us utcoffset]. fold end_us. rewrite He.
    rewrite timedelta_of_us_small by (subst start_us; lia).
    rewrite sub_eq; cbn [wall_us total_us utcoffset]. fold start_us.
    by rewrite Hs.
  - intros Hbad.
    destruct (timedelta_of_us_cases (days_ago o * US_PER_DAY))
      as [->|[msg ->]]; [|eauto].
    rewrite sub_eq; cbn [wall_us total_us utcoffset]. fold end_us.
    destruct (in_range end_us); [|eauto].
    destruct (timedelta_of_us_cases (period o * US_PER_MINUTE))
      as [->|[msg ->]]; [|eauto].
    rewrite sub_eq; cbn [wall_us total_us utcoffset]. fold start_us.
    simpl in Hbad. rewrite Hbad. eauto.
  - subst start_us. change US_PER_MINUTE with 60000000. lia.
Qed.

(** The default window on 2024-01-01T00:00:00: the day before. *)
Lemma history_time_range_default :
  in_range sample_clock = true
  /\ time_range (sample_env (ok_reply (PyList []))) (history_options None None false)
     = inr (Datetime 63839577600000000 None, Datetime 63839664000000000 None).
Proof.
  split; [reflexivity|].
  apply (proj1 (history_time_range (sample_env (ok_reply (PyList [])))
                  (history_options None None false) eq_refl)).
  reflexivity.
Defined.

(** [--period=-1] is accepted by the parser, and the window then starts
    one minute after its end. *)
Lemma negative_period_start_after_end :
  exists start_time end_time,
    time_range (sample_env (ok_reply (PyList [])))
      (history_options (Some 0) (Some (-1)) false)
    = inr (start_time, end_time)
    /\ ~ wall_us start_time <= wall_us end_time.
Proof.
  exists (Datetime 63839664060000000 None), (Datetime 63839664000000000 None).
  split; [reflexivity|]. cbn. lia.
Qed.

End TimeRange.

(** ** The HTTP wrapper and the two handlers, case by case *)

Lemma raise_for_status_error r e :
  raise_for_status r = inl e -> is_RequestException e = true /\ 400 <= status_code r < 600.
Proof.
  unfold raise_for_status. repeat case_match; intros; simplify_eq; split; try done; lia.
Qed.

Lemma raise_for_status_ok r :
  raise_for_status r = inr tt <-> ~ 400 <= status_code r < 600.
Proof.
  unfold raise_for_status. repeat case_match; split; intros; simplify_eq; try done; lia.
Qed.

Lemma api_get_eq E base secret ep ps w :
  let req := Request (base +:+ ep) [("API-SECRET", secret)] ps in
  api_get E base secret ep ps w =
  match http E req with
  | Raises e =>
      if is_RequestException e then fatal w req e else (Raise e, sent_request w req)
  | Answers r =>
      match raise_for_status r with
      | inl e => fatal w req e
      | inr _ =>
          match body r with
          | inl e =>
              if is_RequestException e then fatal w req e
              else (Raise e, sent_request w req)
          | inr v => (Return v, sent_request w req)
          end
      end
  end.
Proof.
  intros req. unfold api_get, try_except, requests_get, mbind, M_bind, bind.
  fold req. destruct (http E req) as [e|r]; [done|].
  unfold lift at 1. destruct (raise_for_status r) as [e|[]] eqn:Hs.
  - apply raise_for_status_error in Hs as [Hs _]. cbn. by rewrite Hs.
  - unfold json, lift. destruct (body r) as [e|v]; [|done]. 
    cbn. by destruct (is_RequestException e).
Qed.

Lemma api_get_returns E base secret ep ps w v :
  api_returns (http E (Request (base +:+ ep) [("API-SECRET", secret)] ps)) v ->
  api_get E base secret ep ps w
  = (Return v, sent_request w (Request (base +:+ ep) [("API-SECRET", secret)] ps)).
Proof.
  intros (resp & Hr & Hs & Hb). rewrite api_get_eq. cbn zeta.
  by rewrite Hr, Hs, Hb.
Qed.

Lemma append_assoc (s1 s2 s3 : string) :
  (s1 +:+ s2) +:+ s3 = s1 +:+ s2 +:+ s3.
Proof.
  induction s1 as [|c s1 IH]; [done|].
  change (String c s1 +:+ s2) with (String c (s1 +:+ s2)).
  change (String c ?x +:+ ?y) with (String c (x +:+ y)). by f_equal.
Qed.

Lemma append_nil_r (s : string) : s +:+ "" = s.
Proof.
  induction s as [|c s IH]; [done|].
  change (String c s +:+ "") with (String c (s +:+ "")). by f_equal.
Qed.

Lemma base_url_endpoint args :
  ("http://" +:+ host args +:+ ":" +:+ port args) +:+ "/api/v1/entries.json"
  = "http://" +:+ host args +:+ ":" +:+ port args +:+ "/api/v1/entries.json".
Proof. by rewrite !append_assoc. Qed.

Lemma cmd_get_api E args w :
  let req := entries_request args get_params in
  cmd_get E args w =
  match http E req with
  | Raises e =>
      if is_RequestException e then (Exit 1, snd (fatal w req e))
      else (Raise e, sent_request w req)
  | Answers r =>
      match raise_for_status r with
      | inl e => (Exit 1, snd (fatal w req e))
      | inr _ =>
          match body r with
          | inl e =>
              if is_RequestException e then (Exit 1, snd (fatal w req e))
              else (Raise e, sent_request w req)
          | inr entries =>
              let w1 := sent_request w req in
              if truthy entries then
                match getitem_0 entries with
                | inl e => (Raise e, w1)
                | inr entry =>
                    match getitem_str entry "dateString" with
                    | inl e => (Raise e, w1)
                    | inr date_string =>
                        match replace_Z date_string with
                        | inl e => (Raise e, w1)
                        | inr replaced =>
                            match datetime_fromisoformat E replaced with
                            | inl e => (Raise e, w1)
                            | inr t =>
                                match entry with
                                | PyDict d => print (get_line t d) w1
                                | _ => (Raise (no_attribute entry "get"), w1)
                                end
                            end
                        end
                    end
                end
              else print "No data available" w1
          end
      end
  end.
Proof.
  intros req. unfold cmd_get. unfold mbind at 1. unfold M_bind, bind.
  rewrite api_get_eq. cbn zeta. rewrite base_url_endpoint.
  change (Request _ _ _) with req.
  destruct (http E req) as [e|r].
  { by destruct (is_RequestException e). }
  destruct (raise_for_status r) as [e|[]]; [done|].
  destruct (body r) as [e|entries].
  { by destruct (is_RequestException e). }
  unfold fatal; cbn [snd].
  destruct (truthy entries); cbn [negb]; [|done].
  unfold mbind, M_bind, bind.
  destruct (getitem_0 entries) as [e|entry]; [done|]. cbn [lift ret raise].
  destruct (getitem_str entry "dateString") as [e|ds]; [done|]. cbn [lift ret raise].
  destruct (replace_Z ds) as [e|s]; [done|]. cbn [lift ret raise].
  destruct (datetime_fromisoformat E s) as [e|t]; [done|]. cbn [lift ret raise].
  destruct entry; try done.
Qed.

Lemma for_each_ext {A} (l : list A) (f g : A -> M unit) w :
  (forall x w, f x w = g x w) -> for_each l f w = for_each l g w.
Proof.
  intros Hfg. revert w. induction l as [|x l IH]; intros w; [done|].
  cbn [for_each]. unfold bind. rewrite Hfg.
  destruct (g x w) as [[| |] w']; auto.
Qed.

Lemma for_each_print_entry j ds w :
  for_each (List.map PyDict ds) (print_entry j) w
  = (Return tt,
     World (stdout w ++ List.map (if j then jsonl_line else text_line) ds)
       (stderr w) (sent w)).
Proof.
  revert w. induction ds as [|d ds IH]; intros [out err snt].
  { cbn. by rewrite app_nil_r. }
  cbn [List.map for_each]. unfold bind. cbn [print_entry print stdout stderr sent].
  rewrite IH. cbn [stdout stderr sent]. rewrite <- app_assoc. by destruct j.
Qed.

Lemma for_each_print_entry_frame j items w r w' :
  for_each items (print_entry j) w = (r, w') ->
  stderr w' = stderr w /\ sent w' = sent w
  /\ (r = Return tt \/ exists e, r = Raise e).
Proof.
  revert w. induction items as [|x items IH]; intros w.
  { cbn. intros [= <- <-]. eauto. }
  cbn [for_each]. unfold bind.
  destruct x; cbn [print_entry raise];
    try (intros [= <- <-]; by eauto).
  cbn [print]. intros H%IH. by cbn in H.
Qed.

Lemma cmd_history_api E args o w :
  cmd_history E args o w =
  match time_range E o with
  | inl e => (Raise e, w)
  | inr (start_time, end_time) =>
      let req := entries_request args (history_params start_time end_time) in
      match http E req with
      | Raises e =>
          if is_RequestException e then (Exit 1, snd (fatal w req e))
          else (Raise e, sent_request w req)
      | Answers r =>
          match raise_for_status r with
          | inl e => (Exit 1, snd (fatal w req e))
          | inr _ =>
              match body r with
              | inl e =>
                  if is_RequestException e then (Exit 1, snd (fatal w req e))
                  else (Raise e, sent_request w req)
              | inr entries =>
                  match iter entries with
                  | inl e => (Raise e, sent_request w req)
                  | inr items =>
                      for_each items (print_entry (jsonl o)) (sent_request w req)
                  end
              end
          end
      end
  end.
Proof.
  unfold cmd_history, time_range.
  unfold mbind at 1. unfold M_bind, bind.
  destruct (datetime.timedelta_days (days_ago o)) as [e|days]; [done|].
  cbn [lift ret]. unfold mbind at 1. unfold M_bind, bind.
  destruct (datetime.sub (datetime.now (clock_us E)) days)
    as [e|end_time]; [done|].
  cbn [lift ret]. unfold mbind at 1. unfold M_bind, bind.
  destruct (datetime.timedelta_minutes (period o)) as [e|minutes]; [done|].
  cbn [lift ret]. unfold mbind at 1. unfold M_bind, bind.
  destruct (datetime.sub end_time minutes) as [e|start_time]; [done|].
  cbn [lift ret]. unfold mbind at 1. unfold M_bind, bind.
  rewrite api_get_eq. cbn zeta. rewrite base_url_endpoint.
  change (Request _ _ _) with (entries_request args (history_params start_time end_time)).
  set (req := entries_request _ _).
  destruct (http E req) as [e|r].
  { by destruct (is_RequestException e). }
  destruct (raise_for_status r) as [e|[]]; [done|].
  destruct (body r) as [e|entries].
  { by destruct (is_RequestException e). }
  unfold mbind at 1. unfold M_bind, bind.
  destruct (iter entries) as [e|items]; [done|]. cbn [lift ret].
  destruct (jsonl o); apply for_each_ext; intros x w'; by destruct x.
Qed.

(** ** Requests, empty results, failures *)


Lemma time_range_naive E o start_time end_time :
  time_range E o = inr (start_time, end_time) ->
  datetime.utcoffset start_time = None /\ datetime.utcoffset end_time = None.
Proof.
  unfold time_range, datetime.sub, datetime.now.
  repeat case_match; intros; simplify_eq; done.
Qed.

Lemma run_get E a :
  subcmd a = Some ArgvGet ->
  run E a = finish (cmd_get E (parse_args E a) (World [] [] [])).
Proof. intros H. unfold run, main, parse_args; cbn [command]. by rewrite H. Qed.

Lemma run_history E a d p j :
  subcmd a = Some (ArgvHistory d p j) ->
  run E a = finish (cmd_history E (parse_args E a) (history_options d p j)
                      (World [] [] [])).
Proof. intros H. unfold run, main, parse_args; cbn [command]. by rewrite H. Qed.

Lemma run_no_command E a :
  subcmd a = None -> run E a = Process [help_text E] [] 1 [].
Proof. intros H. unfold run, main, parse_args; cbn [command]. by rewrite H. Qed.

(** C3.  Every request the script sends goes to
    [http://{host}:{port}/api/v1/entries.json] with the header [API-SECRET]
    set to the secret.  [get] sends exactly one request, with the query
    parameters [count: 1].  [history] sends exactly one request once its
    time window is computed (and none when that computation raises): the
    two [find[dateString]] bounds are the ISO texts of the start and end
    times, which are naive values of the local clock, each with a literal
    [Z] appended, followed by [count: 10000]. *)
Theorem request_sent (E : env) (a : argv) :
  let args := parse_args E a in
  let entries_url :=
    "http://" +:+ host args +:+ ":" +:+ port args +:+ "/api/v1/entries.json" in
  let auth := [("API-SECRET", api_secret args)] in
  match subcmd a with
  | None => proc_sent (run E a) = []
  | Some ArgvGet =>
      proc_sent (run E a)
      = [ {| url := entries_url; headers := auth;
             params := Some [("count", PyInt 1)] |} ]
  | Some (ArgvHistory d p j) =>
      match time_range E (history_options d p j) with
      | inl _ => proc_sent (run E a) = []
      | inr (start_time, end_time) =>
          datetime.utcoffset start_time = None /\ datetime.utcoffset end_time = None
          /\ proc_sent (run E a)
             = [ {| url := entries_url; headers := auth;
                    params :=
                      Some [("find[dateString][$gte]",
                             PyStr (datetime.isoformat start_time +:+ "Z"));
                            ("find[dateString][$lte]",
                             PyStr (datetime.isoformat end_time +:+ "Z"));
                            ("count", PyInt 10000)] |} ]
      end
  end.
Proof.
  intros args entries_url auth.
  destruct (subcmd a) as [[|d p j]|] eqn:Hsub.
  - rewrite (run_get _ _ Hsub), cmd_get_api. cbn zeta. fold args.
    change (entries_request args get_params)
      with (Request entries_url auth (Some [("count", PyInt 1)])).
    unfold fatal, sent_request, print.
    repeat case_match; done.
  - rewrite (run_history _ _ _ _ _ Hsub), cmd_history_api. fold args.
    destruct (time_range E (history_options d p j))
      as [e|[start_time end_time]] eqn:Hrange; [done|].
    destruct (time_range_naive _ _ _ _ Hrange) as [-> ->].
    split; [done|]. split; [done|]. cbn zeta.
    change (entries_request args (history_params start_time end_time))
      with (Request entries_url auth (Some (history_params start_time end_time))).
    set (req := Request _ _ _).
    unfold fatal, sent_request.
    repeat case_match; try done.
    match goal with |- context [for_each ?l ?f ?w] =>
      destruct (for_each l f w) as [res wl] eqn:Hloop end.
    apply for_each_print_entry_frame in Hloop as (_ & Hsent & [->| [e ->]]);
      cbn in *; by rewrite Hsent.
  - by rewrite run_no_command.
Qed.

(** [get] with every setting on the command line, and [history] for the
    ninety minutes that ended a day ago, on a clock that reads
    2024-01-01T12:34:56.789012. *)
Lemma request_sent_examples :
  let E := {| environ := ∅; clock_us := 63839709296789012;
              http := fun _ => ok_reply (PyList []); help_text := "";
              datetime_fromisoformat := datetime.fromisoformat |} in
  let options := Argv (Some "ns.example.org") (Some "1337") (Some "s3cret") in
  proc_sent (run E (options (Some ArgvGet)))
  = [ {| url := "http://ns.example.org:1337/api/v1/entries.json";
         headers := [("API-SECRET", "s3cret")];
         params := Some [("count", PyInt 1)] |} ]
  /\ proc_sent (run E (options (Some (ArgvHistory (Some 1) (Some 90) false))))
     = [ {| url := "http://ns.example.org:1337/api/v1/entries.json";
            headers := [("API-SECRET", "s3cret")];
            params :=
              Some [("find[dateString][$gte]",
                     PyStr "2023-12-31T11:04:56.789012Z");
                    ("find[dateString][$lte]",
                     PyStr "2023-12-31T12:34:56.789012Z");
                    ("count", PyInt 10000)] |} ].
Proof.
  intros E options. split.
  - exact (request_sent E (options (Some ArgvGet))).
  - pose proof (request_sent E
                  (options (Some (ArgvHistory (Some 1) (Some 90) false))))
      as H.
    vm_compute in H. destruct H as (_ & _ & H). vm_compute. exact H.
Defined.

Lemma cmd_get_returns E args w entries :
  api_returns (http E (entries_request args get_params)) entries ->
  cmd_get E args w =
  let w1 := sent_request w (entries_request args get_params) in
  if truthy entries then
    match getitem_0 entries with
    | inl e => (Raise e, w1)
    | inr entry =>
        match getitem_str entry "dateString" with
        | inl e => (Raise e, w1)
        | inr date_string =>
            match replace_Z date_string with
            | inl e => (Raise e, w1)
            | inr replaced =>
                match datetime_fromisoformat E replaced with
                | inl e => (Raise e, w1)
                | inr t =>
                    match entry with
                    | PyDict d => print (get_line t d) w1
                    | _ => (Raise (no_attribute entry "get"), w1)
                    end
                end
            end
        end
    end
  else print "No data available" w1.
Proof.
  intros (resp & Hr & Hs & Hb). rewrite cmd_get_api. cbn zeta.
  by rewrite Hr, Hs, Hb.
Qed.

Lemma cmd_history_returns E args o w start_time end_time entries :
  time_range E o = inr (start_time, end_time) ->
  api_returns (http E (entries_request args (history_params start_time end_time)))
    entries ->
  cmd_history E args o w =
  let w1 := sent_request w
              (entries_request args (history_params start_time end_time)) in
  match iter entries with
  | inl e => (Raise e, w1)
  | inr items => for_each items (print_entry (jsonl o)) w1
  end.
Proof.
  intros Hrange (resp & Hr & Hs & Hb). rewrite cmd_history_api, Hrange.
  cbn zeta. by rewrite Hr, Hs, Hb.
Qed.

(** C4.  When the API returns an empty array, [get] prints exactly
    "No data available" and exits with status 0, and [history], in either
    output mode, prints nothing and exits with status 0. *)
Theorem empty_result (E : env) (a : argv) :
  let args := parse_args E a in
  (subcmd a = Some ArgvGet ->
   api_returns (http E (entries_request args get_params)) (PyList []) ->
   proc_stdout (run E a) = ["No data available"]
   /\ proc_stderr (run E a) = [] /\ proc_status (run E a) = 0)
  /\ (forall d p j start_time end_time,
        subcmd a = Some (ArgvHistory d p j) ->
        time_range E (history_options d p j) = inr (start_time, end_time) ->
        api_returns
          (http E (entries_request args (history_params start_time end_time)))
          (PyList []) ->
        proc_stdout (run E a) = []
        /\ proc_stderr (run E a) = [] /\ proc_status (run E a) = 0).
Proof.
  intros args. split.
  - intros Hsub Hapi. rewrite (run_get _ _ Hsub).
    by rewrite (cmd_get_returns _ _ _ _ Hapi).
  - intros d p j start_time end_time Hsub Hrange Hapi.
    rewrite (run_history _ _ _ _ _ Hsub).
    by rewrite (cmd_history_returns _ _ _ _ _ _ _ Hrange Hapi).
Qed.

(** The empty array, answered to [get] and to [history --jsonl]. *)
Lemma empty_result_example :
  let E := sample_env (ok_reply (PyList [])) in
  (proc_stdout (run E argv_get) = ["No data available"]
   /\ proc_stderr (run E argv_get) = [] /\ proc_status (run E argv_get) = 0)
  /\ (proc_stdout (run E (argv_history None None true)) = []
      /\ proc_stderr (run E (argv_history None None true)) = []
      /\ proc_status (run E (argv_history None None true)) = 0).
Proof.
  intros E. split.
  - apply (proj1 (empty_result E argv_get)); [reflexivity|].
    eexists. repeat split; reflexivity.
  - eapply (proj2 (empty_result E (argv_history None None true)));
      [reflexivity|reflexivity|].
    eexists. repeat split; reflexivity.
Defined.

Lemma raise_for_status_raises r :
  400 <= status_code r < 600 -> exists e, raise_for_status r = inl e.
Proof.
  intros H. destruct (raise_for_status r) as [e|[]] eqn:Hs; [eauto|].
  apply raise_for_status_ok in Hs. lia.
Qed.

Lemma run_get_sent E a :
  subcmd a = Some ArgvGet ->
  proc_sent (run E a) = [entries_request (parse_args E a) get_params].
Proof.
  intros Hsub. rewrite (run_get _ _ Hsub), cmd_get_api. cbn zeta.
  unfold fatal, sent_request, print. repeat case_match; done.
Qed.

Lemma run_history_sent E a d p j start_time end_time :
  subcmd a = Some (ArgvHistory d p j) ->
  time_range E (history_options d p j) = inr (start_time, end_time) ->
  proc_sent (run E a)
  = [entries_request (parse_args E a) (history_params start_time end_time)].
Proof.
  intros Hsub Hrange.
  rewrite (run_history _ _ _ _ _ Hsub), cmd_history_api, Hrange. cbn zeta.
  unfold fatal, sent_request. repeat case_match; try done.
  match goal with |- context [for_each ?l ?f ?w] =>
    destruct (for_each l f w) as [res wl] eqn:Hloop end.
  apply for_each_print_entry_frame in Hloop as (_ & Hsent & [->| [e ->]]);
    cbn in *; by rewrite Hsent.
Qed.

Lemma run_history_overflow E a d p j e :
  subcmd a = Some (ArgvHistory d p j) ->
  time_range E (history_options d p j) = inl e ->
  run E a = Process [] (traceback e) 1 [].
Proof.
  intros Hsub Hrange.
  by rewrite (run_history _ _ _ _ _ Hsub), cmd_history_api, Hrange.
Qed.

(** What a failed call leaves of a run that had printed nothing yet. *)
Lemma failed_call_outcome E req (k : pyval -> outcome unit * world) :
  transport_failure (http E req) ->
  let w := World [] [] [] in
  let p :=
    finish
      match http E req with
      | Raises e =>
          if is_RequestException e then (Exit 1, snd (fatal w req e))
          else (Raise e, sent_request w req)
      | Answers r =>
          match raise_for_status r with
          | inl e => (Exit 1, snd (fatal w req e))
          | inr _ =>
              match body r with
              | inl e =>
                  if is_RequestException e then (Exit 1, snd (fatal w req e))
                  else (Raise e, sent_request w req)
              | inr v => k v
              end
          end
      end in
  proc_stdout p = [] /\ proc_status p = 1
  /\ exists m rest, proc_stderr p = m :: rest /\ m <> "".
Proof.
  intros Hf w p. subst p.
  destruct Hf as [e|r Hs|r e Hb].
  - destruct (is_RequestException e); cbn; eauto 10.
  - destruct (raise_for_status_raises r Hs) as [e ->]. cbn; eauto 10.
  - destruct (raise_for_status r) as [e'|[]]; [cbn; eauto 10|].
    rewrite Hb. destruct (is_RequestException e); cbn; eauto 10.
Qed.

(** C2, as the code has it.  A call fails when [requests.get] raises, when
    the status is an error status (400 to 599), or when the body does not
    decode.  Then [api_get] returns no value: either the exception is a
    [RequestException], the message "Error: ..." goes to the error stream
    and the script exits with status 1, or it is of another class and
    propagates.  Either way the process prints nothing on standard output,
    writes a non-empty message on the error stream and ends with status 1. *)
Theorem transport_failure_is_fatal (E : env) :
  (forall base secret ep ps w,
     let req := Request (base +:+ ep) [("API-SECRET", secret)] ps in
     transport_failure (http E req) ->
     exists e,
       (is_RequestException e = true
        /\ api_get E base secret ep ps w
           = (Exit 1,
              World (stdout w) (stderr w ++ ["Error: " +:+ exn_msg e])
                (sent w ++ [req])))
       \/ (is_RequestException e = false
           /\ api_get E base secret ep ps w
              = (Raise e, World (stdout w) (stderr w) (sent w ++ [req]))))
  /\ (forall a,
        subcmd a <> None ->
        (forall req, In req (proc_sent (run E a)) ->
                     transport_failure (http E req)) ->
        proc_stdout (run E a) = [] /\ proc_status (run E a) = 1
        /\ exists m rest, proc_stderr (run E a) = m :: rest /\ m <> "").
Proof.
  split.
  - intros base secret ep ps w req Hf. rewrite api_get_eq. fold req.
    unfold fatal, sent_request.
    destruct Hf as [e|r Hs|r e Hb].
    + exists e. destruct (is_RequestException e); eauto.
    + destruct (raise_for_status_raises r Hs) as [e He]. rewrite He.
      apply raise_for_status_error in He as [He _]. eauto.
    + destruct (raise_for_status r) as [e'|[]] eqn:He.
      { apply raise_for_status_error in He as [He _]. eauto. }
      rewrite Hb. exists e. destruct (is_RequestException e); eauto.
  - intros a Hsub Hsent.
    destruct (subcmd a) as [[|d p j]|] eqn:Ha; [| |done].
    + rewrite (run_get_sent _ _ Ha) in Hsent.
      specialize (Hsent _ (or_introl eq_refl)).
      rewrite (run_get _ _ Ha), cmd_get_api. cbn zeta.
      by apply failed_call_outcome.
    + destruct (time_range E (history_options d p j))
        as [e|[start_time end_time]] eqn:Hrange.
      { rewrite (run_history_overflow _ _ _ _ _ _ Ha Hrange). cbn.
        do 2 (split; [done|]). by eexists _, _. }
      rewrite (run_history_sent _ _ _ _ _ _ _ Ha Hrange) in Hsent.
      specialize (Hsent _ (or_introl eq_refl)).
      rewrite (run_history _ _ _ _ _ Ha), cmd_history_api, Hrange. cbn zeta.
      by apply failed_call_outcome.
Qed.

(** HTTP 500 on [get], and a refused connection on [history --jsonl]. *)
Lemma transport_failure_examples :
  let refused := Raises (Exn ConnectionError "Connection refused") in
  let broken :=
    Answers (mkResponse 500 "Internal Server Error"
               "http://127.0.0.1:80/api/v1/entries.json" (inr (PyList []))) in
  (let p := run (sample_env broken) argv_get in
   proc_stdout p = [] /\ proc_status p = 1
   /\ exists m rest, proc_stderr p = m :: rest /\ m <> "")
  /\ (let p := run (sample_env refused) (argv_history None None true) in
      proc_stdout p = [] /\ proc_status p = 1
      /\ exists m rest, proc_stderr p = m :: rest /\ m <> "").
Proof.
  intros refused broken. split.
  - apply (proj2 (transport_failure_is_fatal (sample_env broken))); [done|].
    intros req _. apply failure_status. cbn. lia.
  - apply (proj2 (transport_failure_is_fatal (sample_env refused))); [done|].
    intros req _. apply failure_raises.
Defined.

(** A status outside 2xx that is no error status: 300 with an empty array
    as body is handled like a success. *)
Lemma status_300_is_not_fatal :
  let resp :=
    mkResponse 300 "Multiple Choices"
      "http://127.0.0.1:80/api/v1/entries.json" (inr (PyList [])) in
  let p := run (sample_env (Answers resp)) argv_get in
  ~ (200 <= status_code resp < 300)
  /\ proc_stdout p = ["No data available"]
  /\ proc_stderr p = [] /\ proc_status p = 0.
Proof. cbn. split; [lia|done]. Qed.

(** ** [json.dumps] writes JSON *)

Section JsonText.
Import json.

Lemma append_cons c s1 s2 : String c s1 +:+ s2 = String c (s1 +:+ s2).
Proof. reflexivity. Qed.

Lemma digits_val_app acc s1 s2 :
  datetime.digits_val acc (s1 +:+ s2)
  = match datetime.digits_val acc s1 with
    | Some v => datetime.digits_val v s2
    | None => None
    end.
Proof.
  revert acc. induction s1 as [|a s1 IH]; intros acc; [done|].
  rewrite append_cons. cbn [datetime.digits_val].
  destruct (datetime.digit_val a); [apply IH|done].
Qed.

Lemma all_digits_app s1 s2 :
  all_digits (s1 +:+ s2) = all_digits s1 && all_digits s2.
Proof.
  induction s1 as [|a s1 IH]; [done|].
  rewrite append_cons. cbn [all_digits]. by rewrite IH, andb_assoc.
Qed.

Lemma pretty_N_char_digit x :
  (x < 10)%N ->
  is_digit (pretty_N_char x) = true
  /\ datetime.digit_val (pretty_N_char x) = Some (Z.of_N x)
  /\ (pretty_N_char x = "0"%char -> x = 0%N).
Proof.
  intros Hx.
  assert (x = 0 \/ x = 1 \/ x = 2 \/ x = 3 \/ x = 4 \/ x = 5 \/ x = 6
          \/ x = 7 \/ x = 8 \/ x = 9)%N as Hc by lia.
  repeat destruct Hc as [->|Hc]; try subst x; by repeat split.
Qed.

(** The digits [pretty_N_go] puts in front of its accumulator. *)
Lemma pretty_N_go_digits x :
  exists ds,
    (forall s, pretty_N_go x s = ds +:+ s)
    /\ all_digits ds = true
    /\ datetime.digits_val 0 ds = Some (Z.of_N x)
    /\ ((0 < x)%N -> exists a r, ds = String a r /\ a <> "0"%char).
Proof.
  induction (N.lt_wf_0 x) as [x _ IH].
  destruct (decide (x = 0%N)) as [->|Hx].
  { exists "". repeat split; try done; lia. }
  assert (0 < x)%N as Hpos by lia.
  destruct (IH (x `div` 10)%N) as (ds & Hgo & Hall & Hval & Hhead).
  { apply N.div_lt; lia. }
  pose proof (pretty_N_char_digit (x `mod` 10)%N
                ltac:(apply N.mod_lt; lia)) as (Hd & Hv & Hz).
  exists (ds +:+ String (pretty_N_char (x `mod` 10)) "").
  split; [|split; [|split]].
  - intros s. rewrite pretty_N_go_step by done. rewrite Hgo.
    by rewrite append_assoc.
  - rewrite all_digits_app, Hall. cbn. by rewrite Hd.
  - rewrite digits_val_app, Hval. cbn [datetime.digits_val]. rewrite Hv.
    f_equal. rewrite (N.div_mod x 10) at 3 by lia.
    rewrite N2Z.inj_add, N2Z.inj_mul. change (Z.of_N 10) with 10. ring.
  - intros _. destruct (decide (x `div` 10 = 0)%N) as [Hsmall|Hbig].
    + rewrite Hsmall in Hgo. specialize (Hgo "").
      rewrite pretty_N_go_0 in Hgo. rewrite append_nil_r in Hgo. subst ds.
      eexists _, _. split; [done|]. intros Hc%Hz.
      pose proof (N.div_mod x 10 ltac:(lia)) as Hdm.
      rewrite Hsmall, Hc in Hdm. lia.
    + destruct Hhead as (a & r & -> & Ha); [by apply N.neq_0_lt_0|].
      eexists _, _. split; [by rewrite append_cons|done].
Qed.

Lemma pretty_N_digits (n : N) :
  exists a r,
    pretty n = String a r
    /\ all_digits (String a r) = true
    /\ datetime.digits_val 0 (String a r) = Some (Z.of_N n)
    /\ (a = "0"%char -> r = "").
Proof.
  unfold pretty, pretty_N. case_decide as Hn.
  { subst n. by exists "0"%char, "". }
  destruct (pretty_N_go_digits n) as (ds & Hgo & Hall & Hval & Hhead).
  destruct Hhead as (a & r & -> & Ha); [by apply N.neq_0_lt_0|].
  exists a, r. rewrite Hgo, append_nil_r. done.
Qed.

Lemma is_digit_not_minus a : is_digit a = true -> Ascii.eqb a "-" = false.
Proof.
  unfold is_digit. intros [H1 H2]%andb_true_iff.
  apply Ascii.eqb_neq. intros ->. done.
Qed.

Lemma span_digits_all ds :
  all_digits ds = true -> span_digits ds = (ds, "").
Proof.
  induction ds as [|a ds IH]; [done|]. cbn [all_digits span_digits].
  intros [-> ->%IH]%andb_true_iff. done.
Qed.

Lemma span_digits_app ds a r :
  all_digits ds = true -> is_digit a = false ->
  span_digits (ds +:+ String a r) = (ds, String a r).
Proof.
  intros Hds Ha. induction ds as [|d ds IH].
  { change ("" +:+ String a r) with (String a r).
    cbn [span_digits]. by rewrite Ha. }
  rewrite append_cons. cbn [all_digits span_digits] in *.
  apply andb_true_iff in Hds as [-> Hds]. by rewrite IH.
Qed.

Lemma int_part_pretty (n : N) : int_part (pretty n) = true.
Proof.
  destruct (pretty_N_digits n) as (a & r & -> & Hall & _ & Hz).
  unfold int_part. cbn [all_digits] in Hall. rewrite Hall. cbn.
  destruct (Ascii.eqb_spec a "0") as [->%Hz|]; [by subst|done].
Qed.

Lemma number_pretty_N (n : N) :
  number (pretty n) = true /\ int_value (pretty n) = Some (Z.of_N n).
Proof.
  pose proof (int_part_pretty n) as Hip.
  destruct (pretty_N_digits n) as (a & r & Heq & Hall & Hval & _).
  rewrite Heq in *. 
  assert (Ascii.eqb a "-" = false) as Hm.
  { apply is_digit_not_minus. cbn in Hall. by apply andb_true_iff in Hall as [? _]. }
  unfold number, int_value. rewrite Hm.
  rewrite (span_digits_all _ Hall), Hip. done.
Qed.

Lemma number_pretty_Z (z : Z) :
  number (pretty z) = true /\ int_value (pretty z) = Some z.
Proof.
  destruct z as [|p|p].
  - done.
  - change (pretty (Z.pos p)) with (pretty (N.pos p)).
    apply number_pretty_N.
  - change (pretty (Z.neg p)) with ("-" +:+ pretty (N.pos p)).
    destruct (number_pretty_N (N.pos p)) as [Hn Hv].
    destruct (pretty_N_digits (N.pos p)) as (a & r & Heq & Hall & Hval & _).
    rewrite Heq in *.
    assert (Ascii.eqb a "-" = false) as Hm.
    { apply is_digit_not_minus. cbn in Hall. by apply andb_true_iff in Hall as [? _]. }
    split.
    + unfold number in *. rewrite append_cons. cbn [Ascii.eqb].
      change ("" +:+ String a r) with (String a r).
      rewrite Hm in Hn. 
      replace (Ascii.eqb "-" "-") with true by done. done.
    + unfold int_value. rewrite append_cons.
      replace (Ascii.eqb "-" "-") with true by done.
      change ("" +:+ String a r) with (String a r). by rewrite Hval.
Qed.

Lemma span_digits_then ds r :
  all_digits ds = true -> starts_without_digit r ->
  span_digits (ds +:+ r) = (ds, r).
Proof.
  intros Hds Hr. destruct r as [|a r].
  - rewrite append_nil_r. by apply span_digits_all.
  - by apply span_digits_app.
Qed.

Lemma all_digits_pretty_N (n : N) : all_digits (pretty n) = true.
Proof. by destruct (pretty_N_digits n) as (a & r & -> & Hall & _). Qed.

Lemma all_digits_digits_str l : all_digits (digits_str l) = true.
Proof.
  induction l as [|d l IH]; [done|].
  unfold digits_str in *. cbn [List.map string_of_list_ascii all_digits].
  rewrite IH, andb_true_r. unfold digit_char.
  apply pretty_N_char_digit, N.mod_lt. done.
Qed.

Lemma number_sign_int (neg : bool) (n : N) tail :
  starts_without_digit tail ->
  number ((if neg then "-" else "") +:+ pretty n +:+ tail) = after_int tail.
Proof.
  intros Htail.
  assert (number (pretty n +:+ tail) = after_int tail) as Hpos.
  { pose proof (int_part_pretty n) as Hip.
    pose proof (all_digits_pretty_N n) as Hall.
    destruct (pretty_N_digits n) as (a & r & Heq & Hall' & _ & _).
    unfold number. rewrite Heq, append_cons.
    rewrite is_digit_not_minus
      by (cbn in Hall'; by apply andb_true_iff in Hall' as [? _]).
    rewrite <- append_cons, <- Heq.
    by rewrite (span_digits_then _ _ Hall Htail), Hip. }
  destruct neg; [|done].
  rewrite <- Hpos. unfold number at 1. rewrite append_cons.
  replace (Ascii.eqb "-" "-") with true by done.
  change ("" +:+ ?x) with x.
  unfold number.
  destruct (pretty_N_digits n) as (a & r & Heq & Hall' & _ & _).
  rewrite Heq, append_cons.
  by rewrite is_digit_not_minus
    by (cbn in Hall'; by apply andb_true_iff in Hall' as [? _]).
Qed.

Lemma exp_part_printed (e : Z) :
  exp_part ("e" +:+ (if e <? 0 then "-" else "+")
            +:+ (if Z.abs e <? 10 then "0" else "") +:+ pretty (Z.abs_N e))
  = true.
Proof.
  rewrite append_cons. change ("" +:+ ?x) with x. cbn [exp_part].
  replace (Ascii.eqb "e" "e") with true by done. cbn [orb andb].
  assert (all_digits ((if Z.abs e <? 10 then "0" else "")
                      +:+ pretty (Z.abs_N e)) = true) as Hall.
  { rewrite all_digits_app, all_digits_pretty_N. by destruct (Z.abs e <? 10). }
  assert ((if Z.abs e <? 10 then "0" else "") +:+ pretty (Z.abs_N e) <> "")
    as Hne.
  { destruct (pretty_N_digits (Z.abs_N e)) as (a & r & -> & _).
    by destruct (Z.abs e <? 10). }
  destruct (e <? 0); rewrite append_cons; change ("" +:+ ?x) with x.
  all: match goal with |- context [(?a || ?b)%bool] =>
         change (a || b)%bool with true end;
       cbv iota; rewrite Hall, andb_true_r;
    by apply negb_true_iff, String.eqb_neq.
Qed.

Lemma number_decimal_repr (f : decimal) : number (decimal_repr f) = true.
Proof.
  unfold decimal_repr. rewrite number_sign_int.
  - destruct (f_exp f) as [e|].
    + destruct (f_frac f) as [|d ds].
      * change ("" +:+ ?x) with x. unfold after_int.
        rewrite append_cons at 1.
        replace (Ascii.eqb "e" ".") with false by done.
        apply exp_part_printed.
      * rewrite append_assoc, append_cons. change ("" +:+ ?x) with x.
        unfold after_int. replace (Ascii.eqb "." ".") with true by done.
        rewrite span_digits_then; [|apply all_digits_digits_str|done].
        rewrite exp_part_printed, andb_true_r. done.
    + rewrite append_cons. change ("" +:+ ?x) with x.
      unfold after_int. replace (Ascii.eqb "." ".") with true by done.
      rewrite span_digits_all.
      * by destruct (f_frac f).
      * destruct (f_frac f); [done|apply all_digits_digits_str].
  - by destruct (f_exp f) as [e|], (f_frac f).
Qed.

Lemma escape_char_chars a t s :
  chars t s -> chars (escape_char a +:+ t) (String a s).
Proof.
  intros Hts.
  destruct a as [[] [] [] [] [] [] [] []];
    match goal with |- chars (escape_char ?a +:+ _) _ =>
      let e := eval vm_compute in (escape_char a) in
      change (escape_char a) with e
    end;
    rewrite ?append_cons; change ("" +:+ t) with t;
    first [ apply chars_plain; [reflexivity|assumption]
          | eapply chars_escape; [reflexivity|assumption]
          | eapply chars_u; [reflexivity..|assumption] ].
Qed.

Lemma escape_chars s : chars (escape s) s.
Proof.
  induction s as [|a s IH]; [constructor|].
  cbn [escape]. by apply escape_char_chars.
Qed.

Lemma quote_string_lit s : string_lit (quote s) s.
Proof. exists (escape s). split; [done|apply escape_chars]. Qed.

Lemma pyval_nested_ind (P : pyval -> Prop) :
  P PyNone -> (forall b, P (PyBool b)) -> (forall n, P (PyInt n)) ->
  (forall f, P (PyFloat f)) -> (forall s, P (PyStr s)) ->
  (forall l, Forall P l -> P (PyList l)) ->
  (forall d, Forall (fun kv => P (snd kv)) d -> P (PyDict d)) ->
  forall v, P v.
Proof.
  intros HNone HBool HInt HFloat HStr HList HDict.
  fix IH 1. intros [ | b | n | f | s | l | d].
  - exact HNone.
  - apply HBool.
  - apply HInt.
  - apply HFloat.
  - apply HStr.
  - apply HList. induction l as [|x l IHl]; constructor; [apply IH|apply IHl].
  - apply HDict.
    induction d as [|[k x] d IHd]; constructor; [apply IH|apply IHd].
Qed.

Lemma separated_join {A} (item : string -> A -> Prop) (f : A -> string)
  (l : list A) (w : string) :
  l <> [] ->
  Forall (fun x => forall w, ws w -> item (w +:+ f x) x) l ->
  ws w ->
  separated item (w +:+ join ", " (List.map f l)) l.
Proof.
  intros Hne Hall. revert w.
  induction Hall as [|x l Hx Hall IH]; [done|]. intros w Hw.
  destruct l as [|y l].
  { cbn [List.map join]. apply separated_one. by apply Hx. }
  change (join ", " (List.map f (x :: y :: l)))
    with (f x +:+ ", " +:+ join ", " (List.map f (y :: l))).
  replace (w +:+ f x +:+ ", " +:+ join ", " (List.map f (y :: l)))
    with ((w +:+ f x) +:+ "," +:+ (" " +:+ join ", " (List.map f (y :: l))))
    by (by rewrite !append_assoc).
  apply separated_cons; [by apply Hx|]. by apply IH.
Qed.

Lemma padded_left {A} (item : string -> A -> Prop) t x w :
  item t x -> ws w -> padded item (w +:+ t) x.
Proof.
  intros Ht Hw. exists w, t, "". by rewrite append_nil_r.
Qed.

Lemma Forall_forallb_impl {A} (P : A -> Prop) (f : A -> bool) (l : list A) :
  Forall (fun x => f x = true -> P x) l -> forallb f l = true -> Forall P l.
Proof.
  induction 1 as [|x l Hx Hl IH]; [constructor|].
  cbn [forallb]. intros [Hfx Hfl]%andb_true_iff. constructor; [by apply Hx|].
  by apply IH.
Qed.

(** What [json.dumps] writes for a value without infinities and
    not-a-numbers is a JSON text for that value. *)
Lemma dumps_denotes v : finite v = true -> denotes (dumps v) v.
Proof.
  induction v as [ | [] | n | f | s | l IH | d IH] using pyval_nested_ind;
    intros Hfin.
  - constructor.
  - constructor.
  - constructor.
  - apply denotes_int; apply number_pretty_Z.
  - destruct f as [f| |]; [|done..].
    apply denotes_float; [apply number_decimal_repr|done].
  - apply denotes_string, quote_string_lit.
  - cbn [finite] in Hfin. apply Forall_forallb_impl in IH; [|exact Hfin].
    destruct l as [|x l]; [by apply (denotes_empty_array "")|].
    cbn [dumps]. apply denotes_array.
    apply (separated_join (padded denotes) dumps (x :: l) ""); [done| |done].
    eapply Forall_impl; [exact IH|]. intros y Hy w Hw. by apply padded_left.
  - cbn [finite] in Hfin.
    apply (Forall_forallb_impl _ (fun kv => finite (snd kv))) in IH;
      [|exact Hfin].
    destruct d as [|kv d]; [by apply (denotes_empty_object "")|].
    cbn [dumps]. apply denotes_object.
    apply (separated_join _ (fun kv => quote (fst kv) +:+ ": " +:+ dumps (snd kv))
             (kv :: d) ""); [done| |done].
    eapply Forall_impl; [exact IH|]. intros [k x] Hx w Hw. cbn [fst snd] in *.
    exists (w +:+ quote k), (" " +:+ dumps x). split; [|split].
    + by rewrite !append_assoc.
    + apply padded_left; [apply quote_string_lit|done].
    + by apply padded_left.
Qed.

Lemma one_line_cons a s :
  one_line (String a s) = negb (Ascii.eqb a "010") && one_line s.
Proof. reflexivity. Qed.

Lemma one_line_app s1 s2 :
  one_line (s1 +:+ s2) = one_line s1 && one_line s2.
Proof.
  induction s1 as [|a s1 IH]; [done|].
  rewrite append_cons, !one_line_cons, IH. by rewrite andb_assoc.
Qed.

Lemma one_line_digits s : all_digits s = true -> one_line s = true.
Proof.
  induction s as [|a s IH]; [done|]. cbn [all_digits].
  intros [Ha Hs]%andb_true_iff. rewrite one_line_cons, (IH Hs), andb_true_r.
  apply negb_true_iff, Ascii.eqb_neq. intros ->. done.
Qed.

Lemma one_line_pretty_N (n : N) : one_line (pretty n) = true.
Proof. apply one_line_digits, all_digits_pretty_N. Qed.

Lemma one_line_pretty_Z (z : Z) : one_line (pretty z) = true.
Proof.
  destruct z as [|p|p]; [done| |].
  - change (pretty (Z.pos p)) with (pretty (N.pos p)). apply one_line_pretty_N.
  - change (pretty (Z.neg p)) with ("-" +:+ pretty (N.pos p)).
    by rewrite one_line_app, one_line_pretty_N.
Qed.

Lemma one_line_decimal_repr f : one_line (decimal_repr f) = true.
Proof.
  unfold decimal_repr.
  rewrite !one_line_app, one_line_pretty_N.
  assert (forall ds, one_line (digits_str ds) = true) as Hds.
  { intros ds. apply one_line_digits, all_digits_digits_str. }
  destruct (f_neg f), (f_exp f) as [e|], (f_frac f) as [|d ds];
    rewrite ?one_line_app, ?one_line_pretty_N, ?Hds;
    try destruct (e <? 0); try destruct (Z.abs e <? 10); done.
Qed.

Lemma one_line_float_text f : one_line (float_text f) = true.
Proof. destruct f as [d|[]|]; [apply one_line_decimal_repr|done..]. Qed.

Lemma one_line_escape s : one_line (escape s) = true.
Proof.
  induction s as [|a s IH]; [done|].
  cbn [escape]. rewrite one_line_app, IH, andb_true_r.
  by destruct a as [[] [] [] [] [] [] [] []].
Qed.

Lemma one_line_quote s : one_line (quote s) = true.
Proof.
  unfold quote. rewrite append_cons, one_line_cons, one_line_app.
  by rewrite one_line_escape.
Qed.

Lemma one_line_join sep parts :
  one_line sep = true -> Forall (fun s => one_line s = true) parts ->
  one_line (join sep parts) = true.
Proof.
  intros Hsep Hall. induction Hall as [|x l Hx Hall IH]; [done|].
  destruct l as [|y l]; [done|].
  change (join sep (x :: y :: l)) with (x +:+ sep +:+ join sep (y :: l)).
  by rewrite !one_line_app, Hx, Hsep, IH.
Qed.

(** [json.dumps] never writes a line break. *)
Lemma one_line_dumps v : one_line (dumps v) = true.
Proof.
  induction v as [ | [] | n | f | s | l IH | d IH] using pyval_nested_ind;
    try done.
  - apply one_line_pretty_Z.
  - apply one_line_float_text.
  - apply one_line_quote.
  - cbn [dumps]. rewrite !one_line_app, one_line_join; [done..|].
    by apply Forall_map.
  - cbn [dumps]. rewrite !one_line_app, one_line_join; [done..|].
    apply Forall_map. eapply Forall_impl; [exact IH|].
    intros [k x] Hx. cbn [fst snd] in *.
    by rewrite !one_line_app, one_line_quote, Hx.
Qed.

End JsonText.

(** ** The characters of a JSON text, and the lines of a stream *)

Section JsonLex.
Import json.

Lemma lex_app st st' s1 s2 :
  lex st s1 = Some st' -> lex st (s1 +:+ s2) = lex st' s2.
Proof.
  revert st. induction s1 as [|a s1 IH]; intros st.
  { by intros [= ->]. }
  rewrite append_cons. cbn [lex].
  destruct st; repeat case_match; try done; apply IH.
Qed.

Lemma lex_outside_cons a s :
  Ascii.eqb a dquote = false -> outside_char a = true ->
  lex Outside (String a s) = lex Outside s.
Proof. intros Hq Ha. cbn [lex]. by rewrite Hq, Ha. Qed.

Lemma lex_ws w : ws w -> lex Outside w = Some Outside.
Proof.
  unfold ws. induction w as [|a w IH]; [done|].
  cbn [list_ascii_of_string forallb lex].
  intros [Ha Hw]%andb_true_iff.
  assert (Ascii.eqb a dquote = false) as ->.
  { apply Ascii.eqb_neq. intros ->. done. }
  unfold outside_char. rewrite Ha. cbn [orb]. by apply IH.
Qed.

Lemma lex_digits s : all_digits s = true -> lex Outside s = Some Outside.
Proof.
  induction s as [|a s IH]; [done|]. cbn [all_digits lex].
  intros [Ha Hs]%andb_true_iff.
  assert (Ascii.eqb a dquote = false) as ->.
  { apply Ascii.eqb_neq. intros ->. done. }
  unfold outside_char. rewrite Ha, orb_true_r. cbn [orb]. by apply IH.
Qed.

Lemma span_digits_spec s ds r :
  span_digits s = (ds, r) -> s = ds +:+ r /\ all_digits ds = true.
Proof.
  revert ds r. induction s as [|a s IH]; intros ds r.
  { by intros [= <- <-]. }
  cbn [span_digits]. destruct (is_digit a) eqn:Ha.
  - destruct (span_digits s) as [ds' r'] eqn:Hs. intros [= <- <-].
    destruct (IH _ _ eq_refl) as [-> Hall]. split; [done|].
    cbn [all_digits]. by rewrite Ha, Hall.
  - by intros [= <- <-].
Qed.

Lemma lex_exp_part s : exp_part s = true -> lex Outside s = Some Outside.
Proof.
  destruct s as [|e rest]; [done|]. cbn [exp_part].
  intros [He Hds]%andb_true_iff.
  apply andb_true_iff in Hds as [_ Hds].
  assert (lex Outside rest = Some Outside) as Hrest.
  { destruct rest as [|sg r]; [done|].
    destruct (Ascii.eqb sg "-" || Ascii.eqb sg "+") eqn:Hsg.
    - cbn [lex].
      apply orb_true_iff in Hsg as [->%Ascii.eqb_eq | ->%Ascii.eqb_eq];
        by apply lex_digits in Hds.
    - by apply lex_digits. }
  cbn [lex].
  apply orb_true_iff in He as [->%Ascii.eqb_eq | ->%Ascii.eqb_eq]; exact Hrest.
Qed.

Lemma lex_after_int r : after_int r = true -> lex Outside r = Some Outside.
Proof.
  destruct r as [|a r']; [done|]. unfold after_int.
  destruct (Ascii.eqb a ".") eqn:Ha.
  - apply Ascii.eqb_eq in Ha as ->.
    destruct (span_digits r') as [fp r''] eqn:Hs.
    apply span_digits_spec in Hs as [-> Hfp].
    intros [_ Hexp]%andb_true_iff. cbn [lex].
    change (lex Outside (fp +:+ r'') = Some Outside).
    rewrite (lex_app _ _ _ _ (lex_digits _ Hfp)). by apply lex_exp_part.
  - apply lex_exp_part.
Qed.

Lemma lex_number t : number t = true -> lex Outside t = Some Outside.
Proof.
  assert (forall s, (let '(ip, r) := span_digits s in int_part ip && after_int r) = true
                    -> lex Outside s = Some Outside) as Hbody.
  { intros s. destruct (span_digits s) as [ip r] eqn:Hs.
    apply span_digits_spec in Hs as [-> Hip].
    intros [_ Hr]%andb_true_iff.
    rewrite (lex_app _ _ _ _ (lex_digits _ Hip)). by apply lex_after_int. }
  unfold number. destruct t as [|a r]; [done|].
  destruct (Ascii.eqb a "-") eqn:Ha.
  - apply Ascii.eqb_eq in Ha as ->. intros H. cbn [lex]. by apply Hbody.
  - apply Hbody.
Qed.

Lemma lex_chars body s : chars body s -> lex Inside body = Some Inside.
Proof.
  induction 1 as [|a t s Ha _ IH|c a t s Hc _ IH
                  |h1 h2 h3 h4 n1 n2 n3 n4 a t s H1 H2 H3 H4 _ _ IH]; [done| | |].
  - cbn [lex]. unfold unescaped in Ha.
    apply andb_true_iff in Ha as [[_ Hq]%andb_true_iff Hb].
    apply negb_true_iff in Hq, Hb. by rewrite Hq, Hb.
  - cbn [lex]. done.
  - cbn [lex].
    assert (forall h n, hex_val h = Some n ->
              Ascii.eqb h dquote = false /\ Ascii.eqb h backslash = false) as Hhex.
    { intros h n Hh. split; apply Ascii.eqb_neq; intros ->; done. }
    destruct (Hhex _ _ H1) as [-> ->], (Hhex _ _ H2) as [-> ->],
      (Hhex _ _ H3) as [-> ->], (Hhex _ _ H4) as [-> ->]. exact IH.
Qed.

Lemma lex_string_lit t s : string_lit t s -> lex Outside t = Some Outside.
Proof.
  intros (body & -> & Hc). rewrite append_cons. cbn [lex].
  change (Ascii.eqb dquote dquote) with true. cbv iota.
  by rewrite (lex_app _ _ _ _ (lex_chars _ _ Hc)).
Qed.

Lemma lex_padded {A} (item : string -> A -> Prop) t x :
  (forall t', item t' x -> lex Outside t' = Some Outside) ->
  padded item t x -> lex Outside t = Some Outside.
Proof.
  intros Hitem (w1 & t' & w2 & -> & Hw1 & Ht' & Hw2).
  rewrite (lex_app _ _ _ _ (lex_ws _ Hw1)).
  rewrite (lex_app _ _ _ _ (Hitem _ Ht')). by apply lex_ws.
Qed.

Lemma lex_separated {A} (item : string -> A -> Prop) body l :
  Forall (fun x => forall t, item t x -> lex Outside t = Some Outside) l ->
  separated item body l -> lex Outside body = Some Outside.
Proof.
  intros Hall Hsep. induction Hsep as [t x Hx|t x body l Hx Hsep IH].
  - apply Forall_inv in Hall. by apply Hall.
  - apply Forall_cons in Hall as [Hhead Htail].
    rewrite (lex_app _ _ _ _ (Hhead _ Hx)), append_cons.
    rewrite lex_outside_cons by done.
    change ("" +:+ body) with body. by apply IH.
Qed.

(** A JSON text passes [lex] and ends outside of a string. *)
Lemma lex_denotes v : forall t, denotes t v -> lex Outside t = Some Outside.
Proof.
  induction v as [ | b | n | f | s | l IH | d IH] using pyval_nested_ind;
    intros t Ht; inversion Ht; subst; try done.
  - by apply lex_number.
  - by apply lex_number.
  - by eapply lex_string_lit.
  - rewrite append_cons, lex_outside_cons by done. change ("" +:+ ?x) with x.
    by rewrite (lex_app _ _ _ _ (lex_ws _ ltac:(eassumption))).
  - rewrite append_cons, lex_outside_cons by done. change ("" +:+ ?x) with x.
    match goal with |- lex Outside (?b +:+ _) = _ =>
      assert (lex Outside b = Some Outside) as Hbody end.
    { eapply lex_separated; [|eassumption].
      eapply Forall_impl; [exact IH|]. intros x Hx t'. by apply lex_padded. }
    by rewrite (lex_app _ _ _ _ Hbody).
  - rewrite append_cons, lex_outside_cons by done. change ("" +:+ ?x) with x.
    by rewrite (lex_app _ _ _ _ (lex_ws _ ltac:(eassumption))).
  - rewrite append_cons, lex_outside_cons by done. change ("" +:+ ?x) with x.
    match goal with |- lex Outside (?b +:+ _) = _ =>
      assert (lex Outside b = Some Outside) as Hbody end.
    { eapply lex_separated; [|eassumption].
      eapply Forall_impl; [exact IH|].
      intros [k x] Hx t' (k' & t'' & -> & Hk & Hv). cbn [fst snd] in *.
      rewrite (lex_app _ _ _ _
                 (lex_padded _ _ _ (fun t' => lex_string_lit t' k) Hk)).
      rewrite append_cons, lex_outside_cons by done. change ("" +:+ ?x) with x.
      by apply (lex_padded denotes _ x). }
    by rewrite (lex_app _ _ _ _ Hbody).
Qed.

(** The lines of a [print] call *)

Lemma split_lines_nonempty s : split_lines s <> [].
Proof.
  destruct s as [|a s]; [done|]. cbn [split_lines].
  destruct (Ascii.eqb a "010"); [done|]. by destruct (split_lines s).
Qed.

(** A text makes one line exactly when it holds no line feed. *)
Lemma split_lines_one_line s : split_lines s = [s] <-> one_line s = true.
Proof.
  induction s as [|a s IH]; [done|].
  rewrite one_line_cons. cbn [split_lines].
  destruct (Ascii.eqb a "010"); cbn [negb andb].
  - split; [|done]. by intros [=].
  - rewrite <- IH. pose proof (split_lines_nonempty s) as Hne.
    destruct (split_lines s) as [|l ls]; [done|].
    + split.
      * by intros [= -> ->].
      * by intros [= -> ->].
Qed.

Lemma stream_lines_one_line texts :
  Forall (fun s => one_line s = true) texts -> stream_lines texts = texts.
Proof.
  unfold stream_lines. induction 1 as [|s texts Hs _ IH]; [done|].
  cbn [List.map concat]. apply split_lines_one_line in Hs. by rewrite Hs, IH.
Qed.

Lemma one_line_zeros n : one_line (datetime.zeros n) = true.
Proof. induction n as [|n IH]; [done|]. cbn [datetime.zeros]. by rewrite one_line_cons, IH. Qed.

Lemma one_line_zpad w n : one_line (datetime.zpad w n) = true.
Proof.
  unfold datetime.zpad. by rewrite one_line_app, one_line_zeros, one_line_pretty_Z.
Qed.

Lemma one_line_format_offset off : one_line (datetime.format_offset off) = true.
Proof.
  unfold datetime.format_offset.
  repeat case_match; by rewrite ?one_line_app, ?one_line_zpad.
Qed.

(** [isoformat] never writes a line break. *)
Lemma one_line_isoformat t : one_line (datetime.isoformat t) = true.
Proof.
  unfold datetime.isoformat.
  destruct (datetime.ord2ymd _) as [[year month] day].
  repeat case_match;
    by rewrite ?one_line_app, ?one_line_zpad, ?one_line_format_offset.
Qed.

End JsonLex.

(** ** What the handlers print *)

Lemma get_dict d key fallback :
  get (PyDict d) key fallback = inr (field d key fallback).
Proof. reflexivity. Qed.

(** [history] on a list of dicts: one [print] call per entry, in order. *)
Lemma run_history_entries E a d p j start_time end_time ds :
  subcmd a = Some (ArgvHistory d p j) ->
  time_range E (history_options d p j) = inr (start_time, end_time) ->
  api_returns
    (http E (entries_request (parse_args E a)
               (history_params start_time end_time)))
    (PyList (List.map PyDict ds)) ->
  run E a
  = {| proc_stdout := List.map (if j then jsonl_line else text_line) ds;
       proc_stderr := [];
       proc_status := 0;
       proc_sent := [entries_request (parse_args E a)
                       (history_params start_time end_time)] |}.
Proof.
  intros Hsub Hrange Hapi.
  rewrite (run_history _ _ _ _ _ Hsub).
  rewrite (cmd_history_returns _ _ _ _ _ _ _ Hrange Hapi). cbn zeta.
  cbn [iter]. by rewrite for_each_print_entry.
Qed.

(** [get] on a list whose first entry is a dict. *)
Lemma run_get_entry E a d rest :
  subcmd a = Some ArgvGet ->
  api_returns (http E (entries_request (parse_args E a) get_params))
    (PyList (PyDict d :: rest)) ->
  run E a
  = let sent := [entries_request (parse_args E a) get_params] in
    match lookup_key "dateString" d with
    | None => Process [] (traceback (Exn KeyError "'dateString'")) 1 sent
    | Some date_string =>
        match replace_Z date_string with
        | inl e => Process [] (traceback e) 1 sent
        | inr replaced =>
            match datetime_fromisoformat E replaced with
            | inl e => Process [] (traceback e) 1 sent
            | inr t => Process [get_line t d] [] 0 sent
            end
        end
    end.
Proof.
  intros Hsub Hapi. rewrite (run_get _ _ Hsub).
  rewrite (cmd_get_returns _ _ _ _ Hapi). cbn zeta.
  cbn [truthy getitem_0 getitem_str].
  destruct (lookup_key "dateString" d) as [ds|]; [|done].
  destruct (replace_Z ds) as [e|s]; [done|].
  by destruct (datetime_fromisoformat E s) as [e|t].
Qed.

(** C5, as the code has it.  When the first entry of the response is an
    object whose [dateString] is a string that the interpreter's
    [datetime.fromisoformat] reads (after every [Z] is replaced by
    [+00:00]), [get] makes exactly one [print] call and exits with status
    0.  The text printed is the ISO-8601 text of the parsed time stamp, the
    [sgv] value or [N/A] when it is absent, the units or [mg/dL] when
    absent, and the direction or the empty string when absent, separated by
    single spaces.  That text is exactly one line of output if and only if
    none of the three values printed after the time stamp holds a line
    break. *)
Theorem get_prints_latest (E : env) (a : argv)
  (d : list (string * pyval)) (rest : list pyval)
  (s : string) (t : datetime.datetime) :
  subcmd a = Some ArgvGet ->
  api_returns (http E (entries_request (parse_args E a) get_params))
    (PyList (PyDict d :: rest)) ->
  lookup_key "dateString" d = Some (PyStr s) ->
  datetime_fromisoformat E (replace "Z" "+00:00" s) = inr t ->
  let value := default (PyStr "N/A") (lookup_key "sgv" d) in
  let units := default (PyStr "mg/dL") (lookup_key "units" d) in
  let direction := default (PyStr "") (lookup_key "direction" d) in
  let text :=
    datetime.isoformat t +:+ " " +:+ str value +:+ " " +:+ str units
    +:+ " " +:+ str direction in
  proc_stdout (run E a) = [text]
  /\ proc_stderr (run E a) = [] /\ proc_status (run E a) = 0
  /\ (stream_lines (proc_stdout (run E a)) = [text]
      <-> json.one_line (str value) = true
          /\ json.one_line (str units) = true
          /\ json.one_line (str direction) = true).
Proof.
  intros Hsub Hapi Hds Ht value units direction text.
  rewrite (run_get_entry _ _ _ _ Hsub Hapi). cbn zeta.
  rewrite Hds. cbn [replace_Z]. rewrite Ht.
  cbn [proc_stdout proc_stderr proc_status].
  change (get_line t d) with text.
  do 3 (split; [done|]).
  unfold stream_lines. cbn [List.map concat]. rewrite app_nil_r.
  rewrite split_lines_one_line. subst text.
  rewrite !one_line_app, one_line_isoformat.
  change (json.one_line " ") with true. cbn [andb].
  rewrite !andb_true_iff. tauto.
Qed.

(** The entry of the specification's example. *)
Lemma get_prints_sample_entry :
  let p := run (sample_env (ok_reply (PyList [PyDict sample_entry]))) argv_get in
  proc_stdout p = ["2024-01-01T00:00:00+00:00 120 mg/dL Flat"]
  /\ stream_lines (proc_stdout p) = ["2024-01-01T00:00:00+00:00 120 mg/dL Flat"]
  /\ proc_status p = 0.
Proof.
  intros p.
  assert (api_returns
            (http (sample_env (ok_reply (PyList [PyDict sample_entry])))
               (entries_request
                  (parse_args (sample_env (ok_reply (PyList [PyDict sample_entry])))
                     argv_get) get_params))
            (PyList [PyDict sample_entry])) as Hapi.
  { eexists. repeat split; reflexivity. }
  destruct (get_prints_latest
              (sample_env (ok_reply (PyList [PyDict sample_entry])))
              argv_get sample_entry [] "2024-01-01T00:00:00Z"
              (datetime.Datetime 63839664000000000 (Some 0))
              eq_refl Hapi eq_refl eq_refl) as (Hout & _ & Hst & Hlines).
  split; [exact Hout|]. split; [|exact Hst].
  apply Hlines. clear. split; [|split]; reflexivity.
Defined.

(** A non-empty response for which [get] prints no line: the first entry
    has no [dateString]. *)
Lemma get_entry_without_dateString :
  let p := run (sample_env (ok_reply (PyList [PyDict [("sgv", PyInt 120)]])))
             argv_get in
  proc_stdout p = []
  /\ proc_stderr p = traceback (Exn KeyError "'dateString'")
  /\ proc_status p = 1.
Proof. done. Qed.

(** C6.  The claim fails where the code departs from its own comment
    (one JSON object per line): an [sgv] too large for a float, [1e400] in
    the body, is decoded to infinity, and [json.dumps] writes it as
    [Infinity].  The one line printed for that entry is no JSON text
    (RFC 8259), for any value; the run ends with status 0 all the same. *)
Theorem history_jsonl_infinity :
  let body := PyList [PyDict [("sgv", PyFloat (Infinite false))]] in
  let p := run (sample_env (ok_reply body)) (argv_history None None true) in
  let line :=
    "{" +:+ json.quote "timestamp" +:+ ": null, " +:+ json.quote "sgv"
    +:+ ": Infinity, " +:+ json.quote "units" +:+ ": " +:+ json.quote "mg/dL"
    +:+ ", " +:+ json.quote "direction" +:+ ": " +:+ json.quote "" +:+ "}" in
  proc_stdout p = [line]
  /\ stream_lines (proc_stdout p) = [line]
  /\ proc_stderr p = [] /\ proc_status p = 0
  /\ forall v, ~ json.denotes line v.
Proof.
  intros body p line.
  do 4 (split; [reflexivity|]).
  intros v Hv. apply lex_denotes in Hv. discriminate Hv.
Qed.



(** C8, as the code has it.  In the human-readable mode of [history] one
    [print] call is made per entry, in order: the time stamp, the value or
    [N/A] when [sgv] is absent, and the units or [mg/dL] when absent,
    separated by single spaces.  The direction of the entry is not part of
    the text.  When no text printed holds a line break, the output has
    exactly one line per entry. *)
Theorem history_text_lines (E : env) (a : argv) (d p : option Z)
  (start_time end_time : datetime.datetime)
  (ds : list (list (string * pyval))) :
  subcmd a = Some (ArgvHistory d p false) ->
  time_range E (history_options d p false) = inr (start_time, end_time) ->
  api_returns
    (http E (entries_request (parse_args E a)
               (history_params start_time end_time)))
    (PyList (List.map PyDict ds)) ->
  let line_of entry :=
    str (default PyNone (lookup_key "dateString" entry)) +:+ " "
    +:+ str (default (PyStr "N/A") (lookup_key "sgv" entry)) +:+ " "
    +:+ str (default (PyStr "mg/dL") (lookup_key "units" entry)) in
  proc_stdout (run E a) = List.map line_of ds
  /\ (forall entry v, line_of (("direction", v) :: entry) = line_of entry)
  /\ proc_stderr (run E a) = [] /\ proc_status (run E a) = 0
  /\ (Forall (fun entry => json.one_line (line_of entry) = true) ds ->
      stream_lines (proc_stdout (run E a)) = List.map line_of ds).
Proof.
  intros Hsub Hrange Hapi line_of.
  rewrite (run_history_entries _ _ _ _ _ _ _ _ Hsub Hrange Hapi).
  cbn [proc_stdout proc_stderr proc_status].
  do 4 (split; [done|]).
  intros Hall. apply stream_lines_one_line. by apply Forall_map.
Qed.

(** The sample entry, and an entry that has a direction only. *)
Lemma history_text_sample :
  let p :=
    run (sample_env
           (ok_reply (PyList [PyDict sample_entry;
                              PyDict [("direction", PyStr "Flat")]])))
      (argv_history None None false) in
  proc_stdout p = ["2024-01-01T00:00:00Z 120 mg/dL"; "None N/A mg/dL"]
  /\ stream_lines (proc_stdout p)
     = ["2024-01-01T00:00:00Z 120 mg/dL"; "None N/A mg/dL"].
Proof.
  intros p.
  assert (api_returns
            (http (sample_env
                     (ok_reply (PyList [PyDict sample_entry;
                                        PyDict [("direction", PyStr "Flat")]])))
               (entries_request
                  (parse_args
                     (sample_env
                        (ok_reply (PyList [PyDict sample_entry;
                                           PyDict [("direction", PyStr "Flat")]])))
                     (argv_history None None false))
                  (history_params
                     (datetime.Datetime 63839577600000000 None)
                     (datetime.Datetime 63839664000000000 None))))
            (PyList (List.map PyDict
                       [sample_entry; [("direction", PyStr "Flat")]]))) as Hapi.
  { eexists. repeat split; reflexivity. }
  destruct (history_text_lines
              (sample_env
                 (ok_reply (PyList [PyDict sample_entry;
                                    PyDict [("direction", PyStr "Flat")]])))
              (argv_history None None false) None None
              (datetime.Datetime 63839577600000000 None)
              (datetime.Datetime 63839664000000000 None)
              [sample_entry; [("direction", PyStr "Flat")]]
              eq_refl eq_refl Hapi) as (Hout & _ & _ & _ & Hlines).
  split; [exact Hout|].
  apply Hlines. clear. repeat constructor.
Defined.

(** One entry, two lines: a [dateString] with a line feed in it. *)
Lemma history_text_line_break :
  let entry := [("dateString", PyStr (String "a" (String "010" "b")))] in
  let p := run (sample_env (ok_reply (PyList [PyDict entry])))
             (argv_history None None false) in
  proc_stdout p = [String "a" (String "010" "b N/A mg/dL")]
  /\ stream_lines (proc_stdout p) = ["a"; "b N/A mg/dL"]
  /\ proc_stderr p = [] /\ proc_status p = 0.
Proof. done. Qed.

(** C9.  [get] reads [entry['dateString']] directly: when the first entry
    has no such key the run ends in an uncaught [KeyError], and when
    [datetime.fromisoformat] raises on the text ([Z] replaced by [+00:00])
    in that exception, uncaught; in both cases the traceback goes to the
    error stream, not the "Error: ..." line of the transport failures,
    nothing is printed and the status is 1.  [history] reads every field
    with [.get]: on a list of objects it never fails, whatever fields are
    missing. *)
Theorem get_needs_dateString (E : env) :
  (forall a d rest,
     subcmd a = Some ArgvGet ->
     api_returns (http E (entries_request (parse_args E a) get_params))
       (PyList (PyDict d :: rest)) ->
     lookup_key "dateString" d = None ->
     proc_stderr (run E a) = traceback (Exn KeyError "'dateString'")
     /\ proc_stdout (run E a) = [] /\ proc_status (run E a) = 1)
  /\ (forall a d rest s e,
        subcmd a = Some ArgvGet ->
        api_returns (http E (entries_request (parse_args E a) get_params))
          (PyList (PyDict d :: rest)) ->
        lookup_key "dateString" d = Some (PyStr s) ->
        datetime_fromisoformat E (replace "Z" "+00:00" s) = inl e ->
        proc_stderr (run E a) = traceback e
        /\ proc_stdout (run E a) = [] /\ proc_status (run E a) = 1)
  /\ (forall a d p j start_time end_time ds,
        subcmd a = Some (ArgvHistory d p j) ->
        time_range E (history_options d p j) = inr (start_time, end_time) ->
        api_returns
          (http E (entries_request (parse_args E a)
                     (history_params start_time end_time)))
          (PyList (List.map PyDict ds)) ->
        proc_stderr (run E a) = [] /\ proc_status (run E a) = 0
        /\ length (proc_stdout (run E a)) = length ds).
Proof.
  split; [|split].
  - intros a d rest Hsub Hapi Hnone.
    rewrite (run_get_entry _ _ _ _ Hsub Hapi). cbn zeta. by rewrite Hnone.
  - intros a d rest s e Hsub Hapi Hds Hbad.
    rewrite (run_get_entry _ _ _ _ Hsub Hapi). cbn zeta.
    rewrite Hds. cbn [replace_Z]. by rewrite Hbad.
  - intros a d p j start_time end_time ds Hsub Hrange Hapi.
    rewrite (run_history_entries _ _ _ _ _ _ _ _ Hsub Hrange Hapi).
    cbn [proc_stdout proc_stderr proc_status].
    by rewrite length_map.
Qed.

(** No [dateString]; an unreadable one; and [history] on the first. *)
Lemma get_needs_dateString_examples :
  let missing := PyList [PyDict [("units", PyStr "mg/dL")]] in
  let unreadable := PyList [PyDict [("dateString", PyStr "yesterday")]] in
  (let p := run (sample_env (ok_reply missing)) argv_get in
   proc_stderr p = traceback (Exn KeyError "'dateString'")
   /\ proc_stdout p = [] /\ proc_status p = 1)
  /\ (let p := run (sample_env (ok_reply unreadable)) argv_get in
      proc_stderr p
      = ["Traceback (most recent call last):";
         "ValueError: Invalid isoformat string: 'yesterday'"]
      /\ proc_stdout p = [] /\ proc_status p = 1)
  /\ (let p := run (sample_env (ok_reply missing))
                 (argv_history None None false) in
      proc_stderr p = [] /\ proc_status p = 0
      /\ length (proc_stdout p) = 1%nat).
Proof.
  intros missing unreadable.
  split; [|split].
  - eapply (proj1 (get_needs_dateString (sample_env (ok_reply missing))))
      with (d := [("units", PyStr "mg/dL")]) (rest := []);
      [reflexivity| |reflexivity].
    eexists. repeat split; reflexivity.
  - eapply (proj1 (proj2 (get_needs_dateString
                            (sample_env (ok_reply unreadable)))))
      with (d := [("dateString", PyStr "yesterday")]) (rest := [])
           (s := "yesterday")
           (e := Exn ValueError "Invalid isoformat string: 'yesterday'");
      [reflexivity| |reflexivity|reflexivity].
    eexists. repeat split; reflexivity.
  - eapply (proj2 (proj2 (get_needs_dateString
                            (sample_env (ok_reply missing)))))
      with (ds := [[("units", PyStr "mg/dL")]]);
      [reflexivity|reflexivity|].
    eexists. repeat split; reflexivity.
Defined.

(** * Further properties *)

(** ** The front end and the exit status *)



(** ** [api_get] *)

(** X17.  Whatever the server does, [api_get] sends exactly one request,
    with the [API-SECRET] header, and writes nothing on standard output.
    It returns without touching the error stream, or exits, always with
    status 1, after one line "Error: ..." for a [RequestException]; an
    exception it lets through is never a [RequestException]. *)
Theorem api_get_effects (E : env) (base_url secret endpoint : string)
  (ps : option (list (string * pyval))) (w w' : world)
  (r : outcome pyval) :
  api_get E base_url secret endpoint ps w = (r, w') ->
  stdout w' = stdout w
  /\ sent w'
     = (sent w ++ [Request (base_url +:+ endpoint)
                     [("API-SECRET", secret)] ps])%list
  /\ match r with
     | Return _ => stderr w' = stderr w
     | Raise e => stderr w' = stderr w /\ is_RequestException e = false
     | Exit code =>
         code = 1
         /\ exists e, is_RequestException e = true
                      /\ stderr w'
                         = (stderr w ++ ["Error: " +:+ exn_msg e])%list
     end.
Proof.
  rewrite api_get_eq. cbn zeta. unfold fatal, sent_request.
  destruct (http E _) as [e|resp].
  { destruct (is_RequestException e) eqn:He; intros [= <- <-]; cbn; eauto 6. }
  destruct (raise_for_status resp) as [e|[]] eqn:Hs.
  { apply raise_for_status_error in Hs as [He _].
    intros [= <- <-]; cbn; eauto 6. }
  destruct (body resp) as [e|v].
  { destruct (is_RequestException e) eqn:He; intros [= <- <-]; cbn; eauto 6. }
  intros [= <- <-]; cbn; eauto.
Qed.

(** A timeout, after earlier output. *)
Lemma api_get_effects_example :
  let E := sample_env (Raises (Exn Timeout "timed out")) in
  let w := World ["earlier output"] [] [] in
  exists w',
    api_get E "http://h:1" "key" "/api/v1/entries.json" None w = (Exit 1, w')
    /\ stdout w' = ["earlier output"]
    /\ stderr w' = ["Error: timed out"]
    /\ sent w' = [Request "http://h:1/api/v1/entries.json"
                    [("API-SECRET", "key")] None].
Proof.
  intros E w. eexists. split; [reflexivity|].
  destruct (api_get_effects E "http://h:1" "key" "/api/v1/entries.json" None
              w _ _ eq_refl) as (Hout & Hsent & _).
  split; [exact Hout|]. split; [reflexivity|exact Hsent].
Defined.

(** ** [get] on bodies of every shape *)

(** X3.  [get] prints all or nothing: either it exits with status 0 after
    exactly one [print] call on standard output, or it exits with status 1
    and has printed nothing there. *)
Theorem get_prints_once_or_nothing (E : env) (a : argv) :
  subcmd a = Some ArgvGet ->
  (proc_status (run E a) = 0 /\ exists text, proc_stdout (run E a) = [text])
  \/ (proc_status (run E a) = 1 /\ proc_stdout (run E a) = []).
Proof.
  intros Ha. rewrite (run_get _ _ Ha), cmd_get_api. cbn zeta.
  unfold fatal, sent_request, print.
  repeat case_match; cbn; eauto.
Qed.

(** A response whose first entry is a number. *)
Lemma get_prints_once_or_nothing_example :
  let p := run (sample_env (ok_reply (PyList [PyInt 5]))) argv_get in
  (proc_status p = 0 /\ exists text, proc_stdout p = [text])
  \/ (proc_status p = 1 /\ proc_stdout p = []).
Proof.
  exact (get_prints_once_or_nothing (sample_env (ok_reply (PyList [PyInt 5])))
           argv_get eq_refl).
Defined.

(** X4.  The test [if not entries] is Python truthiness: [get] answers
    "No data available" with status 0 for every body that decodes to a
    false value, such as [[]], [{}], [null], [0], [false] or the empty
    string. *)
Theorem get_falsy_body (E : env) (a : argv) (entries : pyval) :
  subcmd a = Some ArgvGet ->
  api_returns (http E (entries_request (parse_args E a) get_params)) entries ->
  truthy entries = false ->
  run E a
  = {| proc_stdout := ["No data available"]; proc_stderr := [];
       proc_status := 0;
       proc_sent := [entries_request (parse_args E a) get_params] |}.
Proof.
  intros Ha Hapi Hfalsy. rewrite (run_get _ _ Ha).
  rewrite (cmd_get_returns _ _ _ _ Hapi). cbn zeta. by rewrite Hfalsy.
Qed.

(** The empty object and [null]. *)
Lemma get_falsy_body_examples :
  proc_stdout (run (sample_env (ok_reply (PyDict []))) argv_get)
  = ["No data available"]
  /\ proc_stdout (run (sample_env (ok_reply PyNone)) argv_get)
     = ["No data available"].
Proof.
  split.
  - refine (f_equal proc_stdout
              (get_falsy_body (sample_env (ok_reply (PyDict []))) argv_get
                 (PyDict []) eq_refl _ eq_refl)).
    eexists. repeat split; reflexivity.
  - refine (f_equal proc_stdout
              (get_falsy_body (sample_env (ok_reply PyNone)) argv_get
                 PyNone eq_refl _ eq_refl)).
    eexists. repeat split; reflexivity.
Defined.

(** X5.  [get] reads [entries[0]] and nothing else: under one interpreter
    and one environment, two responses that are lists with the same first
    element give the same run, whatever follows that element. *)
Theorem get_reads_first_entry_only (E1 E2 : env) (a : argv)
  (first : pyval) (rest1 rest2 : list pyval) :
  subcmd a = Some ArgvGet ->
  environ E1 = environ E2 ->
  datetime_fromisoformat E1 = datetime_fromisoformat E2 ->
  api_returns (http E1 (entries_request (parse_args E1 a) get_params))
    (PyList (first :: rest1)) ->
  api_returns (http E2 (entries_request (parse_args E2 a) get_params))
    (PyList (first :: rest2)) ->
  run E1 a = run E2 a.
Proof.
  intros Ha Henv Hiso Hapi1 Hapi2.
  assert (parse_args E1 a = parse_args E2 a) as Hargs.
  { unfold parse_args, DEFAULT_HOST, DEFAULT_PORT, DEFAULT_API_SECRET,
      environ_get. by rewrite Henv. }
  rewrite !(run_get _ _ Ha).
  rewrite (cmd_get_returns _ _ _ _ Hapi1), (cmd_get_returns _ _ _ _ Hapi2).
  by rewrite Hargs, Hiso.
Qed.

(** The sample entry alone, and followed by two more elements. *)
Lemma get_reads_first_entry_only_example :
  run (sample_env (ok_reply (PyList [PyDict sample_entry]))) argv_get
  = run (sample_env (ok_reply (PyList [PyDict sample_entry; PyInt 7;
                                       PyDict []]))) argv_get.
Proof.
  eapply (get_reads_first_entry_only
            (sample_env (ok_reply (PyList [PyDict sample_entry])))
            (sample_env (ok_reply (PyList [PyDict sample_entry; PyInt 7;
                                           PyDict []])))
            argv_get (PyDict sample_entry)
            [] [PyInt 7; PyDict []] eq_refl eq_refl eq_refl);
    eexists; repeat split; reflexivity.
Defined.

(** X6.  When the body decodes to a non-empty object instead of a list (an
    error object served with a success status, say), [entries[0]] raises
    [KeyError]: [get] prints nothing and ends with a traceback and status
    1. *)
Theorem get_object_body (E : env) (a : argv)
  (item : string * pyval) (d : list (string * pyval)) :
  subcmd a = Some ArgvGet ->
  api_returns (http E (entries_request (parse_args E a) get_params))
    (PyDict (item :: d)) ->
  run E a
  = {| proc_stdout := []; proc_stderr := traceback (Exn KeyError "0");
       proc_status := 1;
       proc_sent := [entries_request (parse_args E a) get_params] |}.
Proof.
  intros Ha Hapi. rewrite (run_get _ _ Ha).
  by rewrite (cmd_get_returns _ _ _ _ Hapi).
Qed.

(** An error object. *)
Lemma get_object_body_example :
  let body := PyDict [("status", PyInt 401); ("message", PyStr "Unauthorized")] in
  proc_stderr (run (sample_env (ok_reply body)) argv_get)
  = ["Traceback (most recent call last):"; "KeyError: 0"].
Proof.
  intros body.
  refine (f_equal proc_stderr
            (get_object_body (sample_env (ok_reply body)) argv_get
               ("status", PyInt 401) [("message", PyStr "Unauthorized")]
               eq_refl _)).
  eexists. repeat split; reflexivity.
Defined.

(** X7.  When the first element of the list is not an object,
    [entry['dateString']] raises [TypeError]: [get] prints nothing and ends
    with a traceback and status 1. *)
Theorem get_entry_not_object (E : env) (a : argv)
  (first : pyval) (rest : list pyval) :
  subcmd a = Some ArgvGet ->
  api_returns (http E (entries_request (parse_args E a) get_params))
    (PyList (first :: rest)) ->
  (forall d, first <> PyDict d) ->
  exists msg,
    run E a
    = {| proc_stdout := []; proc_stderr := traceback (Exn TypeError msg);
         proc_status := 1;
         proc_sent := [entries_request (parse_args E a) get_params] |}.
Proof.
  intros Ha Hapi Hnd. rewrite (run_get _ _ Ha).
  rewrite (cmd_get_returns _ _ _ _ Hapi). cbn zeta.
  cbn [truthy getitem_0].
  destruct first; try (eexists; reflexivity). by destruct (Hnd d).
Qed.

(** A list of numbers. *)
Lemma get_entry_not_object_example :
  exists msg,
    run (sample_env (ok_reply (PyList [PyInt 120]))) argv_get
    = {| proc_stdout := []; proc_stderr := traceback (Exn TypeError msg);
         proc_status := 1;
         proc_sent := [entries_request
                         (parse_args (sample_env (ok_reply (PyList [PyInt 120])))
                            argv_get) get_params] |}.
Proof.
  eapply (get_entry_not_object _ argv_get (PyInt 120) [] eq_refl); [|done].
  eexists. repeat split; reflexivity.
Defined.

(** X8.  When [dateString] is present but is not a string, the call of
    [.replace] on it raises [AttributeError]: [get] prints nothing and ends
    with a traceback and status 1. *)
Theorem get_dateString_not_string (E : env) (a : argv)
  (d : list (string * pyval)) (rest : list pyval) (v : pyval) :
  subcmd a = Some ArgvGet ->
  api_returns (http E (entries_request (parse_args E a) get_params))
    (PyList (PyDict d :: rest)) ->
  lookup_key "dateString" d = Some v ->
  (forall s, v <> PyStr s) ->
  run E a
  = {| proc_stdout := [];
       proc_stderr :=
         traceback
           (Exn AttributeError
              ("'" +:+ type_name v +:+ "' object has no attribute 'replace'"));
       proc_status := 1;
       proc_sent := [entries_request (parse_args E a) get_params] |}.
Proof.
  intros Ha Hapi Hv Hns. rewrite (run_get_entry _ _ _ _ Ha Hapi). cbn zeta.
  rewrite Hv. destruct v; try done. by destruct (Hns s).
Qed.

(** A time stamp given as a number of milliseconds. *)
Lemma get_dateString_not_string_example :
  proc_stderr
    (run (sample_env
            (ok_reply (PyList [PyDict [("dateString", PyInt 1704067200000)]])))
       argv_get)
  = ["Traceback (most recent call last):";
     "AttributeError: 'int' object has no attribute 'replace'"].
Proof.
  refine (f_equal proc_stderr
            (get_dateString_not_string _ argv_get
               [("dateString", PyInt 1704067200000)] []
               (PyInt 1704067200000) eq_refl _ eq_refl _)); [|done].
  eexists. repeat split; reflexivity.
Defined.

(** ** [history] on bodies of every shape *)

Lemma for_each_stops j ds x rest w :
  (forall d, x <> PyDict d) ->
  for_each (List.map PyDict ds ++ x :: rest)%list (print_entry j) w
  = (Raise (no_attribute x "get"),
     World (stdout w ++ List.map (if j then jsonl_line else text_line) ds)
       (stderr w) (sent w)).
Proof.
  intros Hx. revert w. induction ds as [|d ds IH]; intros [out err snt].
  { cbn [List.map app for_each]. unfold bind.
    destruct x; cbn; rewrite ?app_nil_r; try done. by destruct (Hx d). }
  cbn [List.map app for_each]. unfold bind.
  cbn [print_entry print stdout stderr sent].
  rewrite IH. cbn [stdout stderr sent]. rewrite <- app_assoc. by destruct j.
Qed.

(** X9.  [history] prints as it goes: when the list holds objects up to an
    element that is not one, the lines of these objects are printed, in
    order, then [entry.get] raises [AttributeError] and the run ends with a
    traceback and status 1; nothing after that element is printed. *)
Theorem history_stops_at_non_object (E : env) (a : argv) (d p : option Z)
  (j : bool) (start_time end_time : datetime.datetime)
  (ds : list (list (string * pyval))) (x : pyval) (rest : list pyval) :
  subcmd a = Some (ArgvHistory d p j) ->
  time_range E (history_options d p j) = inr (start_time, end_time) ->
  api_returns
    (http E (entries_request (parse_args E a)
               (history_params start_time end_time)))
    (PyList (List.map PyDict ds ++ x :: rest)) ->
  (forall fields, x <> PyDict fields) ->
  run E a
  = {| proc_stdout := List.map (if j then jsonl_line else text_line) ds;
       proc_stderr :=
         traceback
           (Exn AttributeError
              ("'" +:+ type_name x +:+ "' object has no attribute 'get'"));
       proc_status := 1;
       proc_sent := [entries_request (parse_args E a)
                       (history_params start_time end_time)] |}.
Proof.
  intros Ha Hrange Hapi Hx.
  rewrite (run_history _ _ _ _ _ Ha).
  rewrite (cmd_history_returns _ _ _ _ _ _ _ Hrange Hapi). cbn zeta.
  cbn [iter]. by rewrite for_each_stops.
Qed.

(** An object, [null], an object. *)
Lemma history_stops_at_non_object_example :
  let body := PyList [PyDict sample_entry; PyNone; PyDict sample_entry] in
  let p := run (sample_env (ok_reply body)) (argv_history None None false) in
  proc_stdout p = ["2024-01-01T00:00:00Z 120 mg/dL"]
  /\ proc_stderr p
     = ["Traceback (most recent call last):";
        "AttributeError: 'NoneType' object has no attribute 'get'"]
  /\ proc_status p = 1.
Proof.
  intros body p.
  assert (p = {| proc_stdout := List.map text_line [sample_entry];
                 proc_stderr := traceback (no_attribute PyNone "get");
                 proc_status := 1;
                 proc_sent := proc_sent p |}) as ->; [|done].
  refine (history_stops_at_non_object (sample_env (ok_reply body))
            (argv_history None None false) None None false
            (datetime.Datetime 63839577600000000 None)
            (datetime.Datetime 63839664000000000 None)
            [sample_entry] PyNone [PyDict sample_entry]
            eq_refl eq_refl _ _); [|done].
  eexists. repeat split; reflexivity.
Defined.

(** X10.  When the body decodes to a value that cannot be iterated ([null],
    a boolean or a number), the [for] loop of [history] raises [TypeError]:
    nothing is printed and the run ends with a traceback and status 1. *)
Theorem history_body_not_iterable (E : env) (a : argv) (d p : option Z)
  (j : bool) (start_time end_time : datetime.datetime) (entries : pyval) :
  subcmd a = Some (ArgvHistory d p j) ->
  time_range E (history_options d p j) = inr (start_time, end_time) ->
  api_returns
    (http E (entries_request (parse_args E a)
               (history_params start_time end_time)))
    entries ->
  (forall l, entries <> PyList l) -> (forall fields, entries <> PyDict fields) ->
  (forall s, entries <> PyStr s) ->
  run E a
  = {| proc_stdout := [];
       proc_stderr :=
         traceback
           (Exn TypeError
              ("'" +:+ type_name entries +:+ "' object is not iterable"));
       proc_status := 1;
       proc_sent := [entries_request (parse_args E a)
                       (history_params start_time end_time)] |}.
Proof.
  intros Ha Hrange Hapi Hl Hd Hs.
  rewrite (run_history _ _ _ _ _ Ha).
  rewrite (cmd_history_returns _ _ _ _ _ _ _ Hrange Hapi). cbn zeta.
  destruct entries; try done.
  - by destruct (Hs s).
  - by destruct (Hl l).
  - by destruct (Hd d0).
Qed.

(** The body [null]. *)
Lemma history_body_not_iterable_example :
  proc_stderr (run (sample_env (ok_reply PyNone))
                 (argv_history None None true))
  = ["Traceback (most recent call last):";
     "TypeError: 'NoneType' object is not iterable"].
Proof.
  refine (f_equal proc_stderr
            (history_body_not_iterable (sample_env (ok_reply PyNone))
               (argv_history None None true) None None true
               (datetime.Datetime 63839577600000000 None)
               (datetime.Datetime 63839664000000000 None)
               PyNone eq_refl eq_refl _ _ _ _)); try done.
  eexists. repeat split; reflexivity.
Defined.

(** X11.  When the body decodes to an object, the loop of [history] runs
    over its keys: the empty object gives no output and status 0, like the
    empty list; any other object fails on its first key, a string without
    [.get], with nothing printed and status 1. *)
Theorem history_object_body (E : env) (a : argv) (d p : option Z)
  (j : bool) (start_time end_time : datetime.datetime)
  (fields : list (string * pyval)) :
  subcmd a = Some (ArgvHistory d p j) ->
  time_range E (history_options d p j) = inr (start_time, end_time) ->
  api_returns
    (http E (entries_request (parse_args E a)
               (history_params start_time end_time)))
    (PyDict fields) ->
  run E a
  = {| proc_stdout := [];
       proc_stderr :=
         match fields with
         | [] => []
         | _ :: _ =>
             traceback
               (Exn AttributeError "'str' object has no attribute 'get'")
         end;
       proc_status := match fields with [] => 0 | _ :: _ => 1 end;
       proc_sent := [entries_request (parse_args E a)
                       (history_params start_time end_time)] |}.
Proof.
  intros Ha Hrange Hapi.
  rewrite (run_history _ _ _ _ _ Ha).
  rewrite (cmd_history_returns _ _ _ _ _ _ _ Hrange Hapi). cbn zeta.
  by destruct fields.
Qed.

(** An error object. *)
Lemma history_object_body_example :
  let body := PyDict [("status", PyInt 401); ("message", PyStr "Unauthorized")] in
  let p := run (sample_env (ok_reply body)) (argv_history None None true) in
  proc_stdout p = [] /\ proc_status p = 1
  /\ proc_stderr p
     = ["Traceback (most recent call last):";
        "AttributeError: 'str' object has no attribute 'get'"].
Proof.
  intros body p.
  assert (api_returns
            (http (sample_env (ok_reply body))
               (entries_request
                  (parse_args (sample_env (ok_reply body))
                     (argv_history None None true))
                  (history_params (datetime.Datetime 63839577600000000 None)
                     (datetime.Datetime 63839664000000000 None))))
            body) as Hapi.
  { eexists. repeat split; reflexivity. }
  pose proof (history_object_body (sample_env (ok_reply body))
                (argv_history None None true) None None true _ _ _
                eq_refl eq_refl Hapi) as Hrun.
  subst p. rewrite Hrun. clear Hrun Hapi.
  split; [reflexivity|]. split; reflexivity.
Defined.

(** X12.  [--jsonl] does not change what is asked of the server: with and
    without it the same request is sent, whatever the other options are
    and whatever the server answers. *)
Theorem jsonl_flag_same_request (E : env)
  (h po s : option string) (d p : option Z) :
  proc_sent (run E (Argv h po s (Some (ArgvHistory d p true))))
  = proc_sent (run E (Argv h po s (Some (ArgvHistory d p false)))).
Proof.
  set (a1 := Argv h po s (Some (ArgvHistory d p true))).
  set (a2 := Argv h po s (Some (ArgvHistory d p false))).
  destruct (time_range E (history_options d p true))
    as [e|[start_time end_time]] eqn:Hrange.
  - by rewrite (run_history_overflow E a1 d p true e eq_refl Hrange),
      (run_history_overflow E a2 d p false e eq_refl Hrange).
  - by rewrite (run_history_sent E a1 d p true _ _ eq_refl Hrange),
      (run_history_sent E a2 d p false _ _ eq_refl Hrange).
Qed.

(** ** The window of [history] *)

Lemma time_range_success E o :
  let end_us := clock_us E - days_ago o * datetime.US_PER_DAY in
  let start_us := end_us - period o * datetime.US_PER_MINUTE in
  datetime.in_range (clock_us E) = true ->
  datetime.in_range end_us = true -> datetime.in_range start_us = true ->
  time_range E o
  = inr (datetime.Datetime start_us None, datetime.Datetime end_us None).
Proof.
  intros end_us start_us Hnow He Hs.
  pose proof Hnow as Hnow'. pose proof He as He'. pose proof Hs as Hs'.
  apply in_range_iff in Hnow', He', Hs'.
  unfold time_range, datetime.timedelta_days, datetime.timedelta_minutes,
    datetime.now.
  rewrite timedelta_of_us_small by (subst end_us; lia).
  rewrite sub_eq; cbn [datetime.wall_us datetime.total_us datetime.utcoffset].
  fold end_us. rewrite He.
  rewrite timedelta_of_us_small by (subst start_us; lia).
  rewrite sub_eq; cbn [datetime.wall_us datetime.total_us datetime.utcoffset].
  fold start_us. by rewrite Hs.
Qed.

Lemma time_range_inr E o start_time end_time :
  time_range E o = inr (start_time, end_time) ->
  end_time
  = datetime.Datetime (clock_us E - days_ago o * datetime.US_PER_DAY) None
  /\ start_time
     = datetime.Datetime
         (clock_us E - days_ago o * datetime.US_PER_DAY
          - period o * datetime.US_PER_MINUTE) None.
Proof.
  unfold time_range, datetime.timedelta_days, datetime.timedelta_minutes,
    datetime.timedelta_of_us, datetime.sub, datetime.now.
  repeat case_match; intros; simplify_eq; done.
Qed.

(** X13.  [history] without [--days-ago] and [--period] asks for the last
    24 hours: the upper bound is the clock reading and the lower bound is
    the reading 24 hours before (the clock being at least one day past
    0001-01-01). *)
Theorem history_default_window (E : env) (h po s : option string) (j : bool) :
  datetime.in_range (clock_us E) = true ->
  datetime.US_PER_DAY <= clock_us E ->
  let a := Argv h po s (Some (ArgvHistory None None j)) in
  proc_sent (run E a)
  = [entries_request (parse_args E a)
       (history_params
          (datetime.Datetime (clock_us E - 24 * datetime.US_PER_HOUR) None)
          (datetime.Datetime (clock_us E) None))].
Proof.
  intros Hnow Hday a.
  apply (run_history_sent E a None None j); [done|].
  pose proof (time_range_success E (history_options None None j)) as Hok.
  cbn zeta in Hok. cbn [days_ago period history_options default] in Hok.
  replace (clock_us E - 0 * datetime.US_PER_DAY) with (clock_us E) in Hok by lia.
  replace (clock_us E - 1440 * datetime.US_PER_MINUTE)
    with (clock_us E - 24 * datetime.US_PER_HOUR) in Hok by done.
  apply Hok; [done|done|].
  apply in_range_iff. apply in_range_iff in Hnow.
  change datetime.US_PER_DAY with 86400000000 in Hday.
  change (24 * datetime.US_PER_HOUR) with 86400000000. lia.
Qed.

(** The default window on 2024-01-01T00:00:00. *)
Lemma history_default_window_example :
  proc_sent (run (sample_env (ok_reply (PyList [])))
               (argv_history None None false))
  = [{| url := "http://127.0.0.1:80/api/v1/entries.json";
        headers := [("API-SECRET", "soilentgreenandblue")];
        params :=
          Some [("find[dateString][$gte]", PyStr "2023-12-31T00:00:00Z");
                ("find[dateString][$lte]", PyStr "2024-01-01T00:00:00Z");
                ("count", PyInt 10000)] |}].
Proof.
  refine (history_default_window (sample_env (ok_reply (PyList [])))
            None None None false eq_refl _).
  vm_compute. discriminate.
Defined.

(** X14.  [--days-ago D] is the run without it on a clock set D days
    back: as long as that earlier reading is a valid date-time, the two runs
    send the same request and print the same. *)
Theorem days_ago_shifts_clock (E : env) (h po s : option string)
  (D : Z) (p : option Z) (j : bool) :
  datetime.in_range (clock_us E) = true ->
  datetime.in_range (clock_us E - D * datetime.US_PER_DAY) = true ->
  let earlier :=
    {| environ := environ E;
       clock_us := clock_us E - D * datetime.US_PER_DAY;
       http := http E; help_text := help_text E;
       datetime_fromisoformat := datetime_fromisoformat E |} in
  run E (Argv h po s (Some (ArgvHistory (Some D) p j)))
  = run earlier (Argv h po s (Some (ArgvHistory None p j))).
Proof.
  intros Hnow Hend earlier.
  rewrite (run_history E (Argv h po s (Some (ArgvHistory (Some D) p j)))
             (Some D) p j eq_refl).
  rewrite (run_history earlier (Argv h po s (Some (ArgvHistory None p j)))
             None p j eq_refl).
  rewrite !cmd_history_api.
  assert (time_range E (history_options (Some D) p j)
          = time_range earlier (history_options None p j)) as ->; [|done].
  pose proof Hnow as Hnow'. pose proof Hend as Hend'.
  apply in_range_iff in Hnow', Hend'.
  unfold time_range, datetime.timedelta_days, datetime.now.
  cbn [days_ago period history_options default clock_us earlier].
  change (id D) with D.
  rewrite timedelta_of_us_small by lia.
  rewrite (timedelta_of_us_small (0 * datetime.US_PER_DAY)) by done.
  rewrite !sub_eq.
  cbn [datetime.wall_us datetime.total_us datetime.utcoffset].
  replace (clock_us E - D * datetime.US_PER_DAY - 0 * datetime.US_PER_DAY)
    with (clock_us E - D * datetime.US_PER_DAY) by lia.
  by rewrite Hend.
Qed.

(** Three days back, one hour of data. *)
Lemma days_ago_shifts_clock_example :
  run (sample_env (ok_reply (PyList [PyDict sample_entry])))
    (Argv None None None (Some (ArgvHistory (Some 3) (Some 60) true)))
  = run {| environ := ∅; clock_us := sample_clock - 3 * 86400000000;
           http := fun _ => ok_reply (PyList [PyDict sample_entry]);
           help_text := "usage: nightscout-cli [-h] {get,history} ...";
           datetime_fromisoformat := datetime.fromisoformat |}
      (Argv None None None (Some (ArgvHistory None (Some 60) true))).
Proof.
  exact (days_ago_shifts_clock
           (sample_env (ok_reply (PyList [PyDict sample_entry])))
           None None None 3 (Some 60) true eq_refl eq_refl).
Defined.

(** X15.  With the default period, the window of [--days-ago D+1] ends
    where the window of [--days-ago D] starts: the [$lte] bound of the one
    request is the [$gte] bound of the other.  Both bounds are inclusive, so
    daily windows leave no gap and share their boundary instant. *)
Theorem daily_windows_meet (E : env) (h po s : option string) (D : Z)
  (j : bool) (start0 end0 start1 end1 : datetime.datetime) :
  time_range E (history_options (Some D) None j) = inr (start0, end0) ->
  time_range E (history_options (Some (D + 1)) None j) = inr (start1, end1) ->
  let a0 := Argv h po s (Some (ArgvHistory (Some D) None j)) in
  let a1 := Argv h po s (Some (ArgvHistory (Some (D + 1)) None j)) in
  proc_sent (run E a0)
  = [entries_request (parse_args E a0) (history_params start0 end0)]
  /\ proc_sent (run E a1)
     = [entries_request (parse_args E a1) (history_params start1 start0)].
Proof.
  intros H0 H1 a0 a1. split.
  - by apply (run_history_sent E a0 (Some D) None j).
  - rewrite (run_history_sent E a1 (Some (D + 1)) None j _ _ eq_refl H1).
    apply time_range_inr in H0 as [_ ->], H1 as [-> _].
    cbn [days_ago period history_options default]. change (id ?x) with x.
    replace (clock_us E - (D + 1) * datetime.US_PER_DAY)
      with (clock_us E - D * datetime.US_PER_DAY
            - 1440 * datetime.US_PER_MINUTE); [done|].
    change datetime.US_PER_DAY with 86400000000.
    change datetime.US_PER_MINUTE with 60000000. lia.
Qed.

(** Today's lower bound and yesterday's upper bound. *)
Lemma daily_windows_meet_example :
  let E := sample_env (ok_reply (PyList [])) in
  let bound (a : argv) (key : string) :=
    match proc_sent (run E a) with
    | [req] => lookup_key key (default [] (params req))
    | _ => None
    end in
  bound (argv_history (Some 0) None false) "find[dateString][$gte]"
  = Some (PyStr "2023-12-31T00:00:00Z")
  /\ bound (argv_history (Some 1) None false) "find[dateString][$lte]"
     = Some (PyStr "2023-12-31T00:00:00Z").
Proof.
  intros E bound.
  destruct (daily_windows_meet E None None None 0 false
              (datetime.Datetime 63839577600000000 None)
              (datetime.Datetime 63839664000000000 None)
              (datetime.Datetime 63839491200000000 None)
              (datetime.Datetime 63839577600000000 None)
              eq_refl eq_refl) as [H0 H1].
  change (0 + 1) with 1 in H1.
  unfold bound, argv_history. rewrite H0, H1. clear H0 H1.
  split; reflexivity.
Defined.

(** ** The characters of a JSONL line *)

Section JsonAscii.
Import json.

Lemma ascii_text_cons a s :
  ascii_text (String a s)
  = (32 <=? N_of_ascii a)%N && (N_of_ascii a <=? 126)%N && ascii_text s.
Proof. reflexivity. Qed.

Lemma ascii_text_app s1 s2 :
  ascii_text (s1 +:+ s2) = ascii_text s1 && ascii_text s2.
Proof.
  induction s1 as [|a s1 IH]; [done|].
  rewrite append_cons, !ascii_text_cons, IH. by rewrite andb_assoc.
Qed.

Lemma ascii_text_digits s : all_digits s = true -> ascii_text s = true.
Proof.
  induction s as [|a s IH]; [done|]. cbn [all_digits].
  intros [Ha Hs]%andb_true_iff. rewrite ascii_text_cons, (IH Hs), andb_true_r.
  unfold is_digit in Ha. apply andb_true_iff in Ha as [H1 H2].
  apply andb_true_iff. split; apply N.leb_le.
  - apply N.leb_le in H1. lia.
  - apply N.leb_le in H2. lia.
Qed.

Lemma ascii_text_pretty_N (n : N) : ascii_text (pretty n) = true.
Proof. apply ascii_text_digits, all_digits_pretty_N. Qed.

Lemma ascii_text_pretty_Z (z : Z) : ascii_text (pretty z) = true.
Proof.
  destruct z as [|p|p]; [done| |].
  - change (pretty (Z.pos p)) with (pretty (N.pos p)). apply ascii_text_pretty_N.
  - change (pretty (Z.neg p)) with ("-" +:+ pretty (N.pos p)).
    by rewrite ascii_text_app, ascii_text_pretty_N.
Qed.

Lemma ascii_text_decimal_repr f : ascii_text (decimal_repr f) = true.
Proof.
  unfold decimal_repr.
  rewrite !ascii_text_app, ascii_text_pretty_N.
  assert (forall ds, ascii_text (digits_str ds) = true) as Hds.
  { intros ds. apply ascii_text_digits, all_digits_digits_str. }
  destruct (f_neg f), (f_exp f) as [e|], (f_frac f) as [|d ds];
    rewrite ?ascii_text_app, ?ascii_text_pretty_N, ?Hds;
    try destruct (e <? 0); try destruct (Z.abs e <? 10); done.
Qed.

Lemma ascii_text_float_text f : ascii_text (float_text f) = true.
Proof. destruct f as [d|[]|]; [apply ascii_text_decimal_repr|done..]. Qed.

Lemma ascii_text_escape s : ascii_text (escape s) = true.
Proof.
  induction s as [|a s IH]; [done|].
  cbn [escape]. rewrite ascii_text_app, IH, andb_true_r.
  by destruct a as [[] [] [] [] [] [] [] []].
Qed.

Lemma ascii_text_quote s : ascii_text (quote s) = true.
Proof.
  unfold quote. rewrite append_cons, ascii_text_cons, ascii_text_app.
  by rewrite ascii_text_escape.
Qed.

Lemma ascii_text_join sep parts :
  ascii_text sep = true -> Forall (fun s => ascii_text s = true) parts ->
  ascii_text (join sep parts) = true.
Proof.
  intros Hsep Hall. induction Hall as [|x l Hx Hall IH]; [done|].
  destruct l as [|y l]; [done|].
  change (join sep (x :: y :: l)) with (x +:+ sep +:+ join sep (y :: l)).
  by rewrite !ascii_text_app, Hx, Hsep, IH.
Qed.

Lemma ascii_text_dumps v : ascii_text (dumps v) = true.
Proof.
  induction v as [ | [] | n | f | s | l IH | d IH] using pyval_nested_ind;
    try done.
  - apply ascii_text_pretty_Z.
  - apply ascii_text_float_text.
  - apply ascii_text_quote.
  - cbn [dumps]. rewrite !ascii_text_app, ascii_text_join; [done..|].
    by apply Forall_map.
  - cbn [dumps]. rewrite !ascii_text_app, ascii_text_join; [done..|].
    apply Forall_map. eapply Forall_impl; [exact IH|].
    intros [k x] Hx. cbn [fst snd] in *.
    by rewrite !ascii_text_app, ascii_text_quote, Hx.
Qed.

End JsonAscii.

Lemma jsonl_loop_ascii items w r w' :
  for_each items (print_entry true) w = (r, w') ->
  Forall (fun line => json.ascii_text line = true) (stdout w) ->
  Forall (fun line => json.ascii_text line = true) (stdout w').
Proof.
  revert w. induction items as [|x items IH]; intros w.
  { cbn. by intros [= <- <-]. }
  cbn [for_each]. unfold bind.
  destruct x; cbn [print_entry raise]; try (by intros [= <- <-]).
  cbn [print]. intros Hloop Hw. apply (IH _ Hloop). cbn [stdout].
  apply Forall_app. split; [done|]. constructor; [|done].
  apply ascii_text_dumps.
Qed.

(** X16.  Every line [history --jsonl] prints consists of printable ASCII
    characters only, whatever the server answered: [json.dumps] escapes
    every other character of a string. *)
Theorem jsonl_output_is_ascii (E : env) (h po s : option string)
  (d p : option Z) :
  Forall (fun line => json.ascii_text line = true)
    (proc_stdout (run E (Argv h po s (Some (ArgvHistory d p true))))).
Proof.
  rewrite (run_history E (Argv h po s (Some (ArgvHistory d p true)))
             d p true eq_refl).
  rewrite cmd_history_api. unfold fatal, sent_request.
  repeat case_match; try (cbn; by constructor).
  match goal with |- context [for_each ?l ?f ?w] =>
    destruct (for_each l f w) as [res wl] eqn:Hloop end.
  apply jsonl_loop_ascii in Hloop; [|by constructor].
  by destruct res.
Qed.

(** ** The lines of [history --jsonl] *)

Lemma lookup_key_finite k d v :
  forallb (fun kv => finite (snd kv)) d = true ->
  lookup_key k d = Some v -> finite v = true.
Proof.
  induction d as [|[k' x] d IH]; [done|]. cbn [forallb lookup_key snd].
  intros [Hx Hd]%andb_true_iff. destruct (String.eqb k k').
  - by intros [= <-].
  - by apply IH.
Qed.

Lemma jsonl_object_finite d :
  finite (PyDict d) = true -> finite (PyDict (jsonl_object d)) = true.
Proof.
  cbn [finite]. intros Hd. unfold jsonl_object, field.
  cbn [forallb snd]. rewrite !andb_true_iff.
  repeat split; try done;
    match goal with |- finite (default _ (lookup_key ?k d)) = true =>
      destruct (lookup_key k d) as [v|] eqn:Hk; [|done];
      exact (lookup_key_finite _ _ _ Hd Hk)
    end.
Qed.

(** X18.  In JSONL mode, when no number in the body was decoded to an
    infinity or a not-a-number, the output lines pair off with the entries
    of the response, in order.  The line of an entry is a JSON text (RFC
    8259) without a line break; it stands for an object with exactly the
    keys [timestamp], [sgv], [units] and [direction], in this order, whose
    [units] and [direction] are [mg/dL] and the empty string when the entry
    has none. *)
Theorem history_jsonl_lines (E : env) (a : argv) (d p : option Z)
  (start_time end_time : datetime.datetime)
  (ds : list (list (string * pyval))) :
  subcmd a = Some (ArgvHistory d p true) ->
  time_range E (history_options d p true) = inr (start_time, end_time) ->
  api_returns
    (http E (entries_request (parse_args E a)
               (history_params start_time end_time)))
    (PyList (List.map PyDict ds)) ->
  finite (PyList (List.map PyDict ds)) = true ->
  let output entry :=
    [("timestamp", default PyNone (lookup_key "dateString" entry));
     ("sgv", default PyNone (lookup_key "sgv" entry));
     ("units", default (PyStr "mg/dL") (lookup_key "units" entry));
     ("direction", default (PyStr "") (lookup_key "direction" entry))] in
  Forall2
    (fun entry line =>
       json.denotes line (PyDict (output entry))
       /\ json.object_with_keys line ["timestamp"; "sgv"; "units"; "direction"]
       /\ json.one_line line = true)
    ds (stream_lines (proc_stdout (run E a)))
  /\ proc_stderr (run E a) = [] /\ proc_status (run E a) = 0.
Proof.
  intros Hsub Hrange Hapi Hfin output.
  rewrite (run_history_entries _ _ _ _ _ _ _ _ Hsub Hrange Hapi).
  cbn [proc_stdout proc_stderr proc_status].
  split; [|done].
  rewrite stream_lines_one_line
    by (apply Forall_map, Forall_forall; intros entry _; apply one_line_dumps).
  assert (Forall (fun entry => finite (PyDict entry) = true) ds) as Hall.
  { cbn [finite] in Hfin. clear -Hfin.
    induction ds as [|entry ds IH]; constructor;
      cbn [List.map forallb] in Hfin; apply andb_true_iff in Hfin as [? ?];
      [done|by apply IH]. }
  apply Forall2_fmap_r, Forall_Forall2_diag.
  eapply Forall_impl; [exact Hall|]. intros entry Hentry.
  assert (json.denotes (jsonl_line entry) (PyDict (output entry))) as Hden.
  { by apply dumps_denotes, jsonl_object_finite. }
  split; [exact Hden|]. split; [|apply one_line_dumps].
  by exists (output entry).
Qed.

(** Two entries, the second one empty. *)
Lemma history_jsonl_sample :
  let E := sample_env (ok_reply (PyList [PyDict sample_entry; PyDict []])) in
  exists line1 line2,
    stream_lines (proc_stdout (run E (argv_history None None true)))
    = [line1; line2]
    /\ json.denotes line1
         (PyDict [("timestamp", PyStr "2024-01-01T00:00:00Z");
                  ("sgv", PyInt 120); ("units", PyStr "mg/dL");
                  ("direction", PyStr "Flat")])
    /\ json.denotes line2
         (PyDict [("timestamp", PyNone); ("sgv", PyNone);
                  ("units", PyStr "mg/dL"); ("direction", PyStr "")]).
Proof.
  intros E.
  assert (api_returns
            (http E (entries_request (parse_args E (argv_history None None true))
                       (history_params
                          (datetime.Datetime 63839577600000000 None)
                          (datetime.Datetime 63839664000000000 None))))
            (PyList (List.map PyDict [sample_entry; []]))) as Hapi.
  { eexists. repeat split; reflexivity. }
  pose proof (history_jsonl_lines E (argv_history None None true) None None
                _ _ [sample_entry; []] eq_refl eq_refl Hapi eq_refl)
    as [Hlines _].
  cbv zeta in Hlines.
  destruct (stream_lines (proc_stdout (run E (argv_history None None true))))
    as [|line1 [|line2 [|line3 rest]]];
    try (exfalso; repeat match goal with
                  | H : Forall2 _ _ _ |- _ => inversion H; clear H; subst
                  end; fail).
  exists line1, line2.
  apply Forall2_cons_1 in Hlines as [(H1 & _) Hlines].
  apply Forall2_cons_1 in Hlines as [(H2 & _) _].
  split; [reflexivity|]. split; [exact H1|exact H2].
Defined.

(** X19.  In JSONL mode every entry makes exactly one line of output,
    whatever its values are: [json.dumps] escapes the line breaks of a
    string. *)
Theorem history_jsonl_one_line_each (E : env) (a : argv) (d p : option Z)
  (start_time end_time : datetime.datetime)
  (ds : list (list (string * pyval))) :
  subcmd a = Some (ArgvHistory d p true) ->
  time_range E (history_options d p true) = inr (start_time, end_time) ->
  api_returns
    (http E (entries_request (parse_args E a)
               (history_params start_time end_time)))
    (PyList (List.map PyDict ds)) ->
  stream_lines (proc_stdout (run E a))
  = List.map (fun entry => json.dumps (PyDict (jsonl_object entry))) ds.
Proof.
  intros Hsub Hrange Hapi.
  rewrite (run_history_entries _ _ _ _ _ _ _ _ Hsub Hrange Hapi).
  cbn [proc_stdout]. apply stream_lines_one_line.
  apply Forall_map, Forall_forall. intros entry _. apply one_line_dumps.
Qed.

(** A time stamp with a line feed in it. *)
Lemma history_jsonl_one_line_each_example :
  let entry := [("dateString", PyStr (String "a" (String "010" "b")))] in
  stream_lines
    (proc_stdout
       (run (sample_env (ok_reply (PyList [PyDict entry])))
          (argv_history None None true)))
  = ["{" +:+ json.quote "timestamp" +:+ ": "
     +:+ String json.dquote "a\nb" +:+ String json.dquote ", "
     +:+ json.quote "sgv" +:+ ": null, " +:+ json.quote "units" +:+ ": "
     +:+ json.quote "mg/dL" +:+ ", " +:+ json.quote "direction" +:+ ": "
     +:+ json.quote "" +:+ "}"].
Proof.
  intros entry.
  refine (history_jsonl_one_line_each
            (sample_env (ok_reply (PyList [PyDict entry])))
            (argv_history None None true) None None
            (datetime.Datetime 63839577600000000 None)
            (datetime.Datetime 63839664000000000 None)
            [entry] eq_refl eq_refl _).
  eexists. repeat split; reflexivity.
Defined.
